(** * kraken-dca: a shallow embedding of [main.py] and [discord_utils.py]

    The bot places recurring market buy orders on the Kraken exchange.  This
    development embeds its request signing, its pre-trade balance check, its
    strategy loop and its Discord notifier, and proves properties of them.

    Modelling conventions.
    - A Python [str] is a Rocq [string] holding the UTF-8 bytes of the text, so
      [s.encode()] is the list of its bytes and [+] on [str] is [++].
    - A Python [float] is an exact rational [Q]: amounts, prices and clock
      readings are finite numbers and arithmetic on them is exact.  NaN,
      infinities and binary rounding are outside the model.
    - Exceptions are values: a computation yields [Ok a] or [Raise e].
    - The network and the clock are the environment, a [World] of oracles; the
      program's effects (requests sent, clock reads, log records) are recorded
      in an explicit [State] that every effectful function threads. *)

From Stdlib Require Import List String Ascii Strings.Byte ZArith QArith Qround Qabs.
From Stdlib Require Import Lia Lqa Bool DecimalString DecimalZ DecimalPos.
Import ListNotations.

Local Open Scope list_scope.
Local Open Scope string_scope.

(** ** Python values and built-ins *)

Module Py.

(** Exceptions.  [except Exception] catches every [Exc]; [SystemExit] derives
    from [BaseException] only and passes through such a handler. *)
Inductive exn : Type :=
| Exc (cls msg : string)
| SystemExit (msg : string).

Definition is_Exception (e : exn) : bool :=
  match e with Exc _ _ => true | SystemExit _ => false end.

Inductive outcome (A : Type) : Type :=
| Ok (a : A)
| Raise (e : exn).
Arguments Ok {A} a.
Arguments Raise {A} e.

Definition obind {A B} (o : outcome A) (k : A -> outcome B) : outcome B :=
  match o with Ok a => k a | Raise e => Raise e end.

(** A decoded JSON document, as [json.loads] / [Response.json()] returns it.
    An object is the list of its items in insertion order (keys distinct);
    numbers are rationals. *)
#[local] Unset Elimination Schemes.
Inductive json : Type :=
| JNull
| JBool (b : bool)
| JNum (q : Q)
| JStr (s : string)
| JArr (items : list json)
| JObj (members : list (string * json)).
#[local] Set Elimination Schemes.

(** Lookup in a dict represented by its item list. *)
Fixpoint assoc {A} (k : string) (m : list (string * A)) : option A :=
  match m with
  | [] => None
  | (k', v) :: m' => if String.eqb k k' then Some v else assoc k m'
  end.

(** [d.get(k, default)]: only a dict has [.get]. *)
Definition dict_get (d : json) (k : string) (default : json) : outcome json :=
  match d with
  | JObj m => Ok (match assoc k m with Some v => v | None => default end)
  | _ => Raise (Exc "AttributeError" "object has no attribute 'get'")
  end.

(** [d[k]] for a string key [k]. *)
Definition getitem (d : json) (k : string) : outcome json :=
  match d with
  | JObj m => match assoc k m with
              | Some v => Ok v
              | None => Raise (Exc "KeyError" k)
              end
  | JArr _ | JStr _ => Raise (Exc "TypeError" "indices must be integers")
  | _ => Raise (Exc "TypeError" "object is not subscriptable")
  end.

(** The first character of a [str]: its leading byte and the UTF-8
    continuation bytes (10xxxxxx) that follow it. *)
Definition is_continuation (c : ascii) : bool :=
  match c with Ascii _ _ _ _ _ _ b6 b7 => b7 && negb b6 end.

Fixpoint take_continuation (s : string) : string :=
  match s with
  | String c s' => if is_continuation c then String c (take_continuation s') else ""
  | EmptyString => ""
  end.

(** [x[0]]. *)
Definition getitem0 (x : json) : outcome json :=
  match x with
  | JArr (v :: _) => Ok v
  | JArr [] => Raise (Exc "IndexError" "list index out of range")
  | JStr (String c s) => Ok (JStr (String c (take_continuation s)))
  | JStr EmptyString => Raise (Exc "IndexError" "string index out of range")
  | JObj _ => Raise (Exc "KeyError" "0")
  | _ => Raise (Exc "TypeError" "object is not subscriptable")
  end.

(** Truth value of an object, as [if x:] tests it. *)
Definition truthy (x : json) : bool :=
  match x with
  | JNull => false
  | JBool b => b
  | JNum q => negb (Qeq_bool q 0)
  | JStr s => negb (String.eqb s "")
  | JArr l => match l with [] => false | _ => true end
  | JObj m => match m with [] => false | _ => true end
  end.

(** [x == s] for a [str] [s]. *)
Definition eq_str (x : json) (s : string) : bool :=
  match x with JStr s' => String.eqb s' s | _ => false end.

(** Whether [', '.join(x)] succeeds: [x] must be iterable and yield only
    [str] items (a [str] yields its characters, a dict its keys). *)
Definition is_str (x : json) : bool :=
  match x with JStr _ => true | _ => false end.

Definition joinable (x : json) : bool :=
  match x with
  | JStr _ | JObj _ => true
  | JArr l => forallb is_str l
  | _ => false
  end.

(** [int(x)] on a float truncates toward zero. *)
Definition int (x : Q) : Z := Z.quot (Qnum x) (Z.pos (Qden x)).

(** [str(n)] on an int. *)
Definition str_int (n : Z) : string := NilZero.string_of_int (Z.to_int n).

(** [int(s)] on the decimal strings [str_int] produces. *)
Definition int_str (s : string) : option Z :=
  option_map Z.of_int (NilZero.int_of_string s).

(** Round half to even to the nearest integer. *)
Definition round_half_even (x : Q) : Z :=
  let f := Qfloor x in
  match Qcompare (x - inject_Z f) (1 # 2) with
  | Lt => f
  | Gt => (f + 1)%Z
  | Eq => if Z.even f then f else (f + 1)%Z
  end.

(** [round(x, ndigits)]: the multiple of [10^-ndigits] nearest to [x], ties
    to the even one. *)
Definition round (x : Q) (ndigits : nat) : Q :=
  let scale := Z.to_pos (10 ^ Z.of_nat ndigits) in
  Qmake (round_half_even (x * inject_Z (Z.pos scale))) scale.

(** [sep.join(items)]. *)
Definition join (sep : string) (items : list string) : string :=
  String.concat sep items.

(** [s.encode()]. *)
Definition encode (s : string) : list byte := list_byte_of_string s.

End Py.
Import Py.

(** ** Library primitives

    The functions of [hashlib], [hmac], [base64] and the float/str conversions
    the program calls.  They are an interface here; the properties below hold
    for every implementation, and [reference_runtime] further down is one. *)
Class Runtime : Type := {
  (** [hashlib.sha256(m).digest()] *)
  sha256 : list byte -> list byte;
  (** [hmac.new(key, msg, hashlib.sha512).digest()] *)
  hmac_sha512 : list byte -> list byte -> list byte;
  (** [base64.b64encode(b).decode()] *)
  b64encode : list byte -> string;
  (** [base64.b64decode(s)]; [None] when it raises [binascii.Error] *)
  b64decode : string -> option (list byte);
  (** [float(s)] on a [str]; [None] when it raises [ValueError] *)
  float_of_str : string -> option Q;
  (** [str(x)] on a float, which is also [format(x, '')] *)
  str_float : Q -> string
}.

(** ** Notification payloads ([discord_utils.py])

    An embed is the dict one of the [create_*_embed] functions builds.  Its
    title, colour, footer and timestamp are fixed by the constructor; the
    arguments are the values its fields are formatted from. *)

(** The text an exception embed is built from. *)
Inductive ErrorText : Type :=
| BalanceFetchFailed (err : json)  (* f"Balance fetch failed: {bal_resp['error']}" *)
| StrOfException (e : exn).        (* str(e) *)

Inductive Embed : Type :=
| StartEmbed (strategy_count : nat)
| DryRunEmbed (pair : string) (amount_eur price volume : Q)
| SuccessEmbed (pair : string) (volume price : Q) (txid : json)
| ErrorEmbed (pair : string) (volume price : Q) (error : json)
| ExceptionEmbed (pair : string) (error : ErrorText)
| CompletionEmbed
| InsufficientFundsEmbed (required available : Q).

(** The [payload] dict of [send_discord_message]: each key is present only
    when the corresponding argument is truthy. *)
Record Payload : Type := mkPayload {
  content : option string;
  embeds : option (list Embed)
}.

(** ** The environment: HTTP and the clock *)

(** A value of a form field. *)
Inductive FieldValue : Type :=
| VStr (s : string)
| VFloat (x : Q).

(** What is handed to [requests] as the request body: nothing, the [data=]
    dict of form fields in insertion order, or the [json=] payload. *)
Inductive Body : Type :=
| NoBody
| FormData (fields : list (string * FieldValue))
| JsonData (payload : Payload).

Inductive Method : Type := GET | POST.

Record Request : Type := mkRequest {
  method : Method;
  url : string;
  headers : list (string * string);
  body : Body
}.

(** A response: its status code and its decoded body, [None] when the body is
    not JSON (then [.json()] raises). *)
Record Response : Type := mkResponse {
  status_code : Z;
  json_body : option json
}.

(** What a call of [requests.get] / [requests.post] does: it returns a
    response, or it raises a [requests] exception (a subclass of [Exception])
    for a transport failure or a timeout. *)
Inductive NetOutcome : Type :=
| Responds (r : Response)
| Fails (cls msg : string).

(** The environment of a run.  [net n r] answers request [r] when it is the
    [n]-th request of the run (counting from 0); [clock k] is what the [k]-th
    call of [time.time()] returns, in seconds. *)
Record World : Type := mkWorld {
  net : nat -> Request -> NetOutcome;
  clock : nat -> Q
}.

(** Log records, one constructor per [LOGGER] call of the program. *)
Inductive LogRecord : Type :=
| LogNoWebhook
| LogDiscordStatus (status : Z)
| LogDiscordException (e : exn)
| LogSystemStatus (status : json)
| LogBalanceError (err : json)
| LogBalanceCheck (required available : Q)
| LogInsufficient (required available : Q)
| LogProcessing (pair : string) (amount_eur : Q)
| LogVolume (volume price : Q) (pair : string)
| LogDryRun (pair : string) (amount_eur price volume : Q)
| LogFailed (pair : string) (volume price : Q) (error : json)
| LogSuccess (pair : string) (volume price : Q) (txid : json)
| LogStrategyException (pair : string) (e : exn)
| LogBaseUrl (base_url : string)
| LogLoaded (count : nat) (dry_run : bool)
| LogCompleted.

(** The effects of a run so far: the requests sent (oldest first), the number
    of clock reads, and the log (oldest first). *)
Record State : Type := mkState {
  sent : list Request;
  reads : nat;
  log : list LogRecord
}.

Definition initial : State := mkState [] 0 [].

(** ** The monad of the program: environment, state and exceptions *)

Definition M (A : Type) : Type := World -> State -> outcome A * State.

Definition ret {A} (a : A) : M A := fun _ s => (Ok a, s).

Definition bind {A B} (c : M A) (k : A -> M B) : M B :=
  fun w s =>
    match c w s with
    | (Ok a, s') => k a w s'
    | (Raise e, s') => (Raise e, s')
    end.

Definition raise {A} (e : exn) : M A := fun _ s => (Raise e, s).

(** A pure computation that may raise. *)
Definition lift {A} (o : outcome A) : M A := fun _ s => (o, s).

(** [try: c  except Exception as e: handler e]. *)
Definition try_except {A} (c : M A) (handler : exn -> M A) : M A :=
  fun w s =>
    match c w s with
    | (Ok a, s') => (Ok a, s')
    | (Raise e, s') =>
        if is_Exception e then handler e w s' else (Raise e, s')
    end.

Declare Scope monad_scope.
Delimit Scope monad_scope with monad.
Notation "x <- c ;; k" := (bind c (fun x => k))
  (at level 61, c at next level, right associativity) : monad_scope.
Notation "c ;; k" := (bind c (fun _ => k))
  (at level 61, right associativity) : monad_scope.
Local Open Scope monad_scope.

(** [LOGGER.<level>(...)]. *)
Definition logger (r : LogRecord) : M unit :=
  fun _ s => (Ok tt, mkState (sent s) (reads s) (log s ++ [r])%list).

(** [time.time()]. *)
Definition time_time : M Q :=
  fun w s => (Ok (clock w (reads s)), mkState (sent s) (S (reads s)) (log s)).

(** Sending a request: it is recorded, then the environment answers. *)
Definition send (r : Request) : M Response :=
  fun w s =>
    let s' := mkState (sent s ++ [r])%list (reads s) (log s) in
    match net w (List.length (sent s)) r with
    | Responds resp => (Ok resp, s')
    | Fails cls msg => (Raise (Exc cls msg), s')
    end.

(** [requests.get(url, timeout=...)]. *)
Definition requests_get (u : string) : M Response :=
  send (mkRequest GET u [] NoBody).

(** [requests.post(url, headers=..., data=..., timeout=...)]. *)
Definition requests_post (u : string) (h : list (string * string))
    (data : list (string * FieldValue)) : M Response :=
  send (mkRequest POST u h (FormData data)).

(** [requests.post(url, json=..., timeout=...)]. *)
Definition requests_post_json (u : string) (p : Payload) : M Response :=
  send (mkRequest POST u [] (JsonData p)).

(** [response.json()]. *)
Definition response_json (r : Response) : M json :=
  match json_body r with
  | Some j => ret j
  | None => raise (Exc "JSONDecodeError" "Expecting value")
  end.

(** ** [discord_utils.py] *)

(** [send_discord_message(webhook_url, content, embed)].  [embed] is [None]
    for the default argument; every embed the program builds is a non-empty
    dict, hence truthy. *)
Definition send_discord_message (webhook_url content : string)
    (embed : option Embed) : M unit :=
  if String.eqb webhook_url "" then
    logger LogNoWebhook
  else
    let payload :=
      mkPayload (if String.eqb content "" then None else Some content)
                (match embed with Some e => Some [e] | None => None end) in
    try_except
      (resp <- requests_post_json webhook_url payload ;;
       if (300 <=? status_code resp)%Z
       then logger (LogDiscordStatus (status_code resp))
       else ret tt)
      (fun e => logger (LogDiscordException e)).

Definition create_start_embed (strategy_count : nat) : Embed :=
  StartEmbed strategy_count.

Definition create_dry_run_embed (pair : string) (amount_eur price volume : Q)
    : Embed :=
  DryRunEmbed pair amount_eur price volume.

(** [', '.join(txid) if txid else 'N/A'] raises [TypeError] when [txid] is
    truthy and cannot be joined. *)
Definition create_success_embed (pair : string) (volume price : Q)
    (txid : json) : outcome Embed :=
  if truthy txid && negb (joinable txid)
  then Raise (Exc "TypeError" "can only join an iterable of str")
  else Ok (SuccessEmbed pair volume price txid).

(** [', '.join(error)] raises [TypeError] when [error] cannot be joined. *)
Definition create_error_embed (pair : string) (volume price : Q)
    (error : json) : outcome Embed :=
  if joinable error
  then Ok (ErrorEmbed pair volume price error)
  else Raise (Exc "TypeError" "can only join an iterable of str").

Definition create_exception_embed (pair : string) (error : ErrorText) : Embed :=
  ExceptionEmbed pair error.

Definition create_completion_embed : Embed := CompletionEmbed.

Definition create_insufficient_funds_embed (required available : Q) : Embed :=
  InsufficientFundsEmbed required available.

(** ** [main.py] *)

Record Strategy : Type := mkStrategy {
  pair : string;
  amount_eur : Q
}.

(** [x < y] on floats. *)
Definition Qltb (x y : Q) : bool :=
  match Qcompare x y with Lt => true | _ => false end.

Section Program.

Context {RT : Runtime}.

(** [float(x)] on a decoded JSON value. *)
Definition float (x : json) : outcome Q :=
  match x with
  | JNum q => Ok q
  | JBool b => Ok (if b then 1 else 0)%Q
  | JStr s => match float_of_str s with
              | Some q => Ok q
              | None => Raise (Exc "ValueError" "could not convert string to float")
              end
  | _ => Raise (Exc "TypeError" "float() argument must be a string or a real number")
  end.

(** [f"{value}"] on a form field value. *)
Definition format (v : FieldValue) : string :=
  match v with
  | VStr s => s
  | VFloat x => str_float x
  end.

Definition check_kraken_status (base_url : string) : M unit :=
  response <- requests_get (base_url ++ "/0/public/SystemStatus") ;;
  j <- response_json response ;;
  result <- lift (dict_get j "result" (JObj [])) ;;
  status <- lift (dict_get result "status" (JStr "Unknown")) ;;
  logger (LogSystemStatus status) ;;
  if negb (eq_str status "online")
  then raise (Exc "Exception" "API is not online. Aborting.")
  else ret tt.

Definition get_nonce : M string :=
  t <- time_time ;;
  ret (str_int (int (t * 1000))).

Definition get_ask_price (pair base_url : string) : M Q :=
  response <- requests_get (base_url ++ "/0/public/Ticker?pair=" ++ pair) ;;
  resp <- response_json response ;;
  result <- lift (getitem resp "result") ;;
  ticker <- lift (getitem result pair) ;;
  asks <- lift (getitem ticker "a") ;;
  ask_price <- lift (getitem0 asks) ;;
  lift (float ask_price).

Definition sign (private_key : string) (message : list byte) : outcome string :=
  match b64decode private_key with
  | Some key => Ok (b64encode (hmac_sha512 key message))
  | None => Raise (Exc "binascii.Error" "Incorrect padding")
  end.

Definition get_signature (private_key data nonce path : string) : outcome string :=
  sign private_key (encode path ++ sha256 (encode (nonce ++ data)))%list.

(** ['&'.join([f"{key}={value}" for key, value in post_data.items()])]. *)
Definition encode_post_data (post_data : list (string * FieldValue)) : string :=
  join "&" (map (fun kv => fst kv ++ "=" ++ format (snd kv)) post_data).

Definition pass_market_order (api_key api_secret pair : string) (volume : Q)
    (base_url : string) : M json :=
  let url_path := "/0/private/AddOrder" in
  let url := base_url ++ url_path in
  nonce <- get_nonce ;;
  let post_data :=
    [ ("nonce", VStr nonce);
      ("ordertype", VStr "market");
      ("type", VStr "buy");
      ("volume", VFloat volume);
      ("pair", VStr pair) ] in
  let post_data_encoded := encode_post_data post_data in
  api_sign <- lift (get_signature api_secret post_data_encoded nonce url_path) ;;
  let headers := [ ("API-Key", api_key); ("API-Sign", api_sign) ] in
  response <- requests_post url headers post_data ;;
  response_json response.

(** Float division raises on a zero divisor. *)
Definition eur_to_volume (pair : string) (amount_eur : Q) (base_url : string)
    : M Q :=
  price <- get_ask_price pair base_url ;;
  if Qeq_bool price 0
  then raise (Exc "ZeroDivisionError" "float division by zero")
  else
    let volume := (amount_eur / price)%Q in
    ret (round volume 8).

Definition get_balance (api_key api_secret base_url : string) : M json :=
  let url_path := "/0/private/Balance" in
  let url := base_url ++ url_path in
  nonce <- get_nonce ;;
  let post_data := [ ("nonce", VStr nonce) ] in
  let post_data_encoded := encode_post_data post_data in
  api_sign <- lift (get_signature api_secret post_data_encoded nonce url_path) ;;
  let headers := [ ("API-Key", api_key); ("API-Sign", api_sign) ] in
  resp <- requests_post url headers post_data ;;
  response_json resp.

(** [sum(s.amount_eur for s in strategies)]: a left-to-right accumulation
    from 0. *)
Definition total_required (strategies : list Strategy) : Q :=
  fold_left (fun acc s => (acc + amount_eur s)%Q) strategies 0%Q.

(** [float(balances.get('ZEUR', balances.get('EUR', 0.0)))]; the inner
    [.get] is the default argument, so it is evaluated first. *)
Definition available_eur (balances : json) : outcome Q :=
  obind (dict_get balances "EUR" (JNum 0)) (fun eur =>
  obind (dict_get balances "ZEUR" eur) float).

Definition ensure_sufficient_funds (api_key api_secret : string)
    (strategies : list Strategy) (discord_webhook base_url : string) : M unit :=
  let required := total_required strategies in
  bal_resp <- get_balance api_key api_secret base_url ;;
  error <- lift (dict_get bal_resp "error" JNull) ;;
  if truthy error then
    logger (LogBalanceError error) ;;
    let embed := create_exception_embed "ALL" (BalanceFetchFailed error) in
    send_discord_message discord_webhook "" (Some embed) ;;
    raise (SystemExit "Aborting due to balance fetch error.")
  else
    balances <- lift (dict_get bal_resp "result" (JObj [])) ;;
    available <- lift (available_eur balances) ;;
    logger (LogBalanceCheck required available) ;;
    if Qltb (available + 1e-8) required then
      logger (LogInsufficient required available) ;;
      let embed := create_insufficient_funds_embed required available in
      send_discord_message discord_webhook "" (Some embed) ;;
      raise (SystemExit "Insufficient EUR balance. Trades cancelled.")
    else ret tt.

(** An element of the [results] list of [execute_strategies]: the dict of a
    dry run, or the decoded response of the order placement. *)
Inductive Result : Type :=
| DryRunResult (pair : string) (amount_eur est_price volume : Q)
| OrderResponse (order_resp : json).

(** The [try] block of the loop body.  It returns the [results] list as the
    block leaves it: with one element appended. *)
Definition strategy_body (api_key api_secret : string)
    (discord_webhook base_url : string) (dry_run : bool)
    (strat : Strategy) (results : list Result) : M (list Result) :=
  logger (LogProcessing (pair strat) (amount_eur strat)) ;;
  price <- get_ask_price (pair strat) base_url ;;
  volume <- eur_to_volume (pair strat) (amount_eur strat) base_url ;;
  logger (LogVolume volume price (pair strat)) ;;
  if dry_run then
    logger (LogDryRun (pair strat) (amount_eur strat) price volume) ;;
    let embed := create_dry_run_embed (pair strat) (amount_eur strat) price volume in
    send_discord_message discord_webhook "" (Some embed) ;;
    ret (results ++ [DryRunResult (pair strat) (amount_eur strat) price volume])%list
  else
    order_resp <- pass_market_order api_key api_secret (pair strat) volume base_url ;;
    error <- lift (dict_get order_resp "error" JNull) ;;
    (if truthy error then
       logger (LogFailed (pair strat) volume price error) ;;
       embed <- lift (create_error_embed (pair strat) volume price error) ;;
       send_discord_message discord_webhook "" (Some embed)
     else
       result <- lift (dict_get order_resp "result" (JObj [])) ;;
       txid <- lift (dict_get result "txid" (JArr [])) ;;
       logger (LogSuccess (pair strat) volume price txid) ;;
       embed <- lift (create_success_embed (pair strat) volume price txid) ;;
       send_discord_message discord_webhook "" (Some embed)) ;;
    ret (results ++ [OrderResponse order_resp])%list.

(** The [except Exception as e] block of the loop body: [results] is left as
    it was. *)
Definition strategy_handler (discord_webhook : string) (strat : Strategy)
    (results : list Result) (e : exn) : M (list Result) :=
  logger (LogStrategyException (pair strat) e) ;;
  let embed := create_exception_embed (pair strat) (StrOfException e) in
  send_discord_message discord_webhook "" (Some embed) ;;
  ret results.

(** The body of the [for strat in strategies] loop. *)
Definition process_strategy (api_key api_secret : string)
    (discord_webhook base_url : string) (dry_run : bool)
    (strat : Strategy) (results : list Result) : M (list Result) :=
  try_except
    (strategy_body api_key api_secret discord_webhook base_url dry_run strat results)
    (strategy_handler discord_webhook strat results).

(** The loop itself, from a given [results] list. *)
Fixpoint strategies_loop (api_key api_secret : string)
    (discord_webhook base_url : string) (dry_run : bool)
    (strategies : list Strategy) (results : list Result) : M (list Result) :=
  match strategies with
  | [] => ret results
  | strat :: rest =>
      results' <- process_strategy api_key api_secret discord_webhook base_url
                    dry_run strat results ;;
      strategies_loop api_key api_secret discord_webhook base_url dry_run
        rest results'
  end.

Definition execute_strategies (api_key api_secret : string)
    (strategies : list Strategy) (discord_webhook base_url : string)
    (dry_run : bool) : M (list Result) :=
  strategies_loop api_key api_secret discord_webhook base_url dry_run
    strategies [].

(** What the [__main__] block reads from the configuration file. *)
Record Config : Type := mkConfig {
  cfg_api_key : string;
  cfg_api_secret : string;
  cfg_discord_webhook : string;
  cfg_base_url : string;
  cfg_strategies : list Strategy;
  cfg_dry_run : bool
}.

(** The [__main__] block, from the loaded configuration on. *)
Definition main (cfg : Config) : M unit :=
  let api_key := cfg_api_key cfg in
  let api_secret := cfg_api_secret cfg in
  let discord_webhook := cfg_discord_webhook cfg in
  let base_url := cfg_base_url cfg in
  let strategies := cfg_strategies cfg in
  let dry_run := cfg_dry_run cfg in
  logger (LogBaseUrl base_url) ;;
  logger (LogLoaded (List.length strategies) dry_run) ;;
  ensure_sufficient_funds api_key api_secret strategies discord_webhook base_url ;;
  let start_embed := create_start_embed (List.length strategies) in
  send_discord_message discord_webhook "" (Some start_embed) ;;
  check_kraken_status base_url ;;
  execute_strategies api_key api_secret strategies discord_webhook base_url dry_run ;;
  let completion_embed := create_completion_embed in
  send_discord_message discord_webhook "" (Some completion_embed) ;;
  logger LogCompleted.

End Program.

(** ** A reference implementation of the library primitives

    SHA-256 and SHA-512 (FIPS 180-4), HMAC (RFC 2104), base64 (RFC 4648, with
    CPython's lenient decoder) and decimal float conversions.  The concrete
    runs further down use them. *)

Module SHA2.

Local Open Scope Z_scope.

(** The two hash functions differ in their word size, their number of rounds,
    their constants and their rotation amounts. *)
Record Params : Type := mkParams {
  word_bytes : nat;
  rounds : nat;
  K : list Z;
  H0 : list Z;
  Sigma0 : Z * Z * Z;
  Sigma1 : Z * Z * Z;
  sigma0 : Z * Z * Z;
  sigma1 : Z * Z * Z
}.

Definition byte_to_Z (b : byte) : Z := Z.of_N (Byte.to_N b).

Definition byte_of_Z (z : Z) : byte :=
  match Byte.of_N (Z.to_N (z mod 256)) with
  | Some b => b
  | None => x00
  end.

(** Big-endian integers. *)
Definition be_decode (bs : list Z) : Z :=
  fold_left (fun acc b => acc * 256 + b) bs 0.

Fixpoint be_encode (n : nat) (x : Z) : list Z :=
  match n with
  | O => []
  | S n' => (be_encode n' (x / 256) ++ [x mod 256])%list
  end.

(** Consecutive groups of [n] elements. *)
Fixpoint chunks {A} (fuel n : nat) (l : list A) : list (list A) :=
  match fuel, l with
  | O, _ | _, [] => []
  | S fuel', _ => firstn n l :: chunks fuel' n (skipn n l)
  end.

Section Hash.

Variable p : Params.

Definition w : Z := 8 * Z.of_nat (word_bytes p).
Definition wrap (x : Z) : Z := Z.land x (Z.ones w).
Definition block_bytes : nat := (16 * word_bytes p)%nat.

Definition rotr (n x : Z) : Z :=
  Z.lor (Z.shiftr x n) (wrap (Z.shiftl x (w - n))).

Definition big_sigma (r : Z * Z * Z) (x : Z) : Z :=
  let '(a, b, c) := r in
  Z.lxor (Z.lxor (rotr a x) (rotr b x)) (rotr c x).

Definition small_sigma (r : Z * Z * Z) (x : Z) : Z :=
  let '(a, b, c) := r in
  Z.lxor (Z.lxor (rotr a x) (rotr b x)) (Z.shiftr x c).

Definition Ch (x y z : Z) : Z :=
  Z.lxor (Z.land x y) (Z.land (wrap (Z.lnot x)) z).

Definition Maj (x y z : Z) : Z :=
  Z.lxor (Z.lxor (Z.land x y) (Z.land x z)) (Z.land y z).

(** The message with its padding: a 1 bit, zeros, and the bit length. *)
Definition pad (msg : list Z) : list Z :=
  let len := Z.of_nat (List.length msg) in
  let len_bytes := (2 * word_bytes p)%nat in
  let block := Z.of_nat block_bytes in
  let zeros := (block - (len + 1 + Z.of_nat len_bytes) mod block) mod block in
  (msg ++ [128] ++ repeat 0 (Z.to_nat zeros) ++ be_encode len_bytes (8 * len))%list.

(** The message schedule, most recent word first. *)
Fixpoint extend (n : nat) (ws : list Z) : list Z :=
  match n with
  | O => ws
  | S n' =>
      let wt := wrap (small_sigma (sigma1 p) (nth 1 ws 0) + nth 6 ws 0
                      + small_sigma (sigma0 p) (nth 14 ws 0) + nth 15 ws 0) in
      extend n' (wt :: ws)
  end.

Definition schedule (block : list Z) : list Z :=
  rev (extend (rounds p - 16) (rev block)).

Definition round_step (st : list Z) (kw : Z * Z) : list Z :=
  match st with
  | [a; b; c; d; e; f; g; h] =>
      let t1 := h + big_sigma (Sigma1 p) e + Ch e f g + fst kw + snd kw in
      let t2 := big_sigma (Sigma0 p) a + Maj a b c in
      [wrap (t1 + t2); a; b; c; wrap (d + t1); e; f; g]
  | _ => st
  end.

Definition compress (h : list Z) (block : list Z) : list Z :=
  let words := map be_decode (chunks 16 (word_bytes p) block) in
  let out := fold_left round_step (combine (K p) (schedule words)) h in
  map (fun xy => wrap (fst xy + snd xy)) (combine h out).

Definition digest (msg : list byte) : list byte :=
  let padded := pad (map byte_to_Z msg) in
  let blocks := chunks (List.length padded) block_bytes padded in
  let h := fold_left compress blocks (H0 p) in
  map byte_of_Z (flat_map (be_encode (word_bytes p)) h).

(** HMAC over this hash function. *)
Definition hmac (key msg : list byte) : list byte :=
  let key' := if (block_bytes <? List.length key)%nat then digest key else key in
  let padded := (key' ++ repeat x00 (block_bytes - List.length key'))%list in
  let mask m := map (fun b => byte_of_Z (Z.lxor (byte_to_Z b) m)) padded in
  digest (mask 92 ++ digest (mask 54 ++ msg))%list.

End Hash.

Definition sha256_params : Params := {|
  word_bytes := 4;
  rounds := 64;
  K := [
    1116352408; 1899447441; 3049323471; 3921009573; 961987163; 1508970993;
    2453635748; 2870763221; 3624381080; 310598401; 607225278; 1426881987;
    1925078388; 2162078206; 2614888103; 3248222580; 3835390401; 4022224774;
    264347078; 604807628; 770255983; 1249150122; 1555081692; 1996064986;
    2554220882; 2821834349; 2952996808; 3210313671; 3336571891; 3584528711;
    113926993; 338241895; 666307205; 773529912; 1294757372; 1396182291;
    1695183700; 1986661051; 2177026350; 2456956037; 2730485921; 2820302411;
    3259730800; 3345764771; 3516065817; 3600352804; 4094571909; 275423344;
    430227734; 506948616; 659060556; 883997877; 958139571; 1322822218;
    1537002063; 1747873779; 1955562222; 2024104815; 2227730452; 2361852424;
    2428436474; 2756734187; 3204031479; 3329325298 ];
  H0 := [
    1779033703; 3144134277; 1013904242; 2773480762; 1359893119; 2600822924;
    528734635; 1541459225 ];
  Sigma0 := (2, 13, 22);
  Sigma1 := (6, 11, 25);
  sigma0 := (7, 18, 3);
  sigma1 := (17, 19, 10)
|}.

Definition sha512_params : Params := {|
  word_bytes := 8;
  rounds := 80;
  K := [
    4794697086780616226; 8158064640168781261; 13096744586834688815; 16840607885511220156;
    4131703408338449720; 6480981068601479193; 10538285296894168987; 12329834152419229976;
    15566598209576043074; 1334009975649890238; 2608012711638119052; 6128411473006802146;
    8268148722764581231; 9286055187155687089; 11230858885718282805; 13951009754708518548;
    16472876342353939154; 17275323862435702243; 1135362057144423861; 2597628984639134821;
    3308224258029322869; 5365058923640841347; 6679025012923562964; 8573033837759648693;
    10970295158949994411; 12119686244451234320; 12683024718118986047; 13788192230050041572;
    14330467153632333762; 15395433587784984357; 489312712824947311; 1452737877330783856;
    2861767655752347644; 3322285676063803686; 5560940570517711597; 5996557281743188959;
    7280758554555802590; 8532644243296465576; 9350256976987008742; 10552545826968843579;
    11727347734174303076; 12113106623233404929; 14000437183269869457; 14369950271660146224;
    15101387698204529176; 15463397548674623760; 17586052441742319658; 1182934255886127544;
    1847814050463011016; 2177327727835720531; 2830643537854262169; 3796741975233480872;
    4115178125766777443; 5681478168544905931; 6601373596472566643; 7507060721942968483;
    8399075790359081724; 8693463985226723168; 9568029438360202098; 10144078919501101548;
    10430055236837252648; 11840083180663258601; 13761210420658862357; 14299343276471374635;
    14566680578165727644; 15097957966210449927; 16922976911328602910; 17689382322260857208;
    500013540394364858; 748580250866718886; 1242879168328830382; 1977374033974150939;
    2944078676154940804; 3659926193048069267; 4368137639120453308; 4836135668995329356;
    5532061633213252278; 6448918945643986474; 6902733635092675308; 7801388544844847127 ];
  H0 := [
    7640891576956012808; 13503953896175478587; 4354685564936845355; 11912009170470909681;
    5840696475078001361; 11170449401992604703; 2270897969802886507; 6620516959819538809 ];
  Sigma0 := (28, 34, 39);
  Sigma1 := (14, 18, 41);
  sigma0 := (1, 8, 7);
  sigma1 := (19, 61, 6)
|}.

End SHA2.

Module Base64.

Local Open Scope Z_scope.

Definition alphabet : string :=
  "ABCDEFGHIJKLMNOPQRSTUVWXYZabcdefghijklmnopqrstuvwxyz0123456789+/".

Definition char_of (n : Z) : ascii :=
  match String.get (Z.to_nat n) alphabet with
  | Some c => c
  | None => "="%char
  end.

Fixpoint index_from (c : ascii) (s : string) (i : Z) : option Z :=
  match s with
  | EmptyString => None
  | String c' s' => if Ascii.eqb c c' then Some i else index_from c s' (i + 1)
  end.

Definition value_of (c : ascii) : option Z := index_from c alphabet 0.

Fixpoint encode_groups (bs : list Z) : list ascii :=
  match bs with
  | [] => []
  | [a] => [char_of (a / 4); char_of (a mod 4 * 16); "="; "="]%char
  | [a; b] =>
      [char_of (a / 4); char_of (a mod 4 * 16 + b / 16);
       char_of (b mod 16 * 4); "="%char]
  | a :: b :: c :: rest =>
      char_of (a / 4) :: char_of (a mod 4 * 16 + b / 16)
      :: char_of (b mod 16 * 4 + c / 64) :: char_of (c mod 64)
      :: encode_groups rest
  end.

(** [base64.b64encode(b).decode()]. *)
Definition encode (bs : list byte) : string :=
  string_of_list_ascii (encode_groups (map SHA2.byte_to_Z bs)).

(** The decoder of [binascii.a2b_base64] in its default, lenient mode: a
    character outside the alphabet is skipped, a pad sequence that completes
    a quad ends the input, and an incomplete quad at the end is an error.
    [quad_pos] is the position in the current quad, [leftchar] the bits not
    yet written, [pads] the pad characters seen since the last data
    character, [out] the bytes written, most recent first. *)
Fixpoint decode_loop (s : string) (quad_pos leftchar pads : Z) (out : list Z)
    : option (list Z) :=
  match s with
  | EmptyString => if quad_pos =? 0 then Some (rev out) else None
  | String ch s' =>
      if Ascii.eqb ch "=" then
        if 2 <=? quad_pos then
          if 4 <=? quad_pos + (pads + 1) then Some (rev out)
          else decode_loop s' quad_pos leftchar (pads + 1) out
        else decode_loop s' quad_pos leftchar pads out
      else
        match value_of ch with
        | None => decode_loop s' quad_pos leftchar pads out
        | Some v =>
            if quad_pos =? 0 then decode_loop s' 1 v 0 out
            else if quad_pos =? 1 then
              decode_loop s' 2 (v mod 16) 0 ((leftchar * 4 + v / 16) :: out)
            else if quad_pos =? 2 then
              decode_loop s' 3 (v mod 4) 0 ((leftchar * 16 + v / 4) :: out)
            else
              decode_loop s' 0 0 0 ((leftchar * 64 + v) :: out)
        end
  end.

Definition is_ascii (c : ascii) : bool :=
  match c with Ascii _ _ _ _ _ _ _ b7 => negb b7 end.

Fixpoint all_ascii (s : string) : bool :=
  match s with
  | EmptyString => true
  | String c s' => is_ascii c && all_ascii s'
  end.

(** [base64.b64decode(s)] on a [str]: a non-ASCII string is refused. *)
Definition decode (s : string) : option (list byte) :=
  if all_ascii s
  then option_map (map SHA2.byte_of_Z) (decode_loop s 0 0 0 [])
  else None.

End Base64.

Module FloatText.

Local Open Scope Z_scope.

Definition digit_of (c : ascii) : option Z :=
  let n := Z.of_N (N_of_ascii c) in
  if (48 <=? n) && (n <=? 57) then Some (n - 48) else None.

(** Reads a run of digits: its value, its length and the rest. *)
Fixpoint digits (s : string) (acc : Z) (count : nat) : Z * nat * string :=
  match s with
  | String c s' =>
      match digit_of c with
      | Some d => digits s' (acc * 10 + d) (S count)
      | None => (acc, count, s)
      end
  | EmptyString => (acc, count, s)
  end.

Definition sign_of (s : string) : Z * string :=
  match s with
  | String "-" s' => (-1, s')
  | String "+" s' => (1, s')
  | _ => (1, s)
  end.

Definition exponent_of (s : string) : option Z :=
  match s with
  | EmptyString => Some 0
  | String c s' =>
      if Ascii.eqb c "e" || Ascii.eqb c "E" then
        let '(sg, s1) := sign_of s' in
        match digits s1 0 0 with
        | (_, O, _) => None
        | (e, _, EmptyString) => Some (sg * e)
        | _ => None
        end
      else None
  end.

(** [float(s)] on a decimal literal: sign, digits, point, digits, exponent.
    The other spellings [float] accepts (surrounding white space, digit
    separators, [inf], [nan]) are refused. *)
Definition parse (s : string) : option Q :=
  let '(sg, s0) := sign_of s in
  let '(ip, ic, s1) := digits s0 0 0 in
  let '(fp, fc, s2) :=
    match s1 with
    | String "." s1' => digits s1' 0 0
    | _ => (0, O, s1)
    end in
  match (ic + fc)%nat, exponent_of s2 with
  | O, _ | _, None => None
  | _, Some e =>
      let mantissa := sg * (ip * 10 ^ Z.of_nat fc + fp) in
      Some (inject_Z mantissa * Qpower 10 (e - Z.of_nat fc))%Q
  end.

Definition ndigits (n : Z) : Z := Z.of_nat (String.length (str_int n)).

(** The decimal exponent of a positive rational: the [e] with
    [10^(e-1) <= x < 10^e]. *)
Definition decimal_point (x : Q) : Z :=
  let e := ndigits (Qnum x) - ndigits (Z.pos (Qden x)) in
  if Qltb x (Qpower 10 e) then e else e + 1.

Fixpoint strip_zeros (fuel : nat) (m : Z) : Z :=
  match fuel with
  | O => m
  | S fuel' => if m mod 10 =? 0 then strip_zeros fuel' (m / 10) else m
  end.

Definition zeros (n : Z) : string :=
  string_of_list_ascii (repeat "0"%char (Z.to_nat n)).

Definition two_digits (n : Z) : string :=
  if n <? 10 then "0" ++ str_int n else str_int n.

(** [repr(x)] of a float: the significant digits [ds] and the position
    [decpt] of the decimal point give fixed notation when
    [-4 < decpt <= 16] and exponent notation otherwise.  The digits are those
    of [x] rounded to 17 significant digits, which are the ones Python prints
    when [x] is a decimal of at most 15 significant digits. *)
Definition repr (x : Q) : string :=
  if Qeq_bool x 0 then "0.0" else
  let sg := if Qltb x 0 then "-" else "" in
  let a := Qabs x in
  let e0 := decimal_point a in
  let m0 := round_half_even (a * Qpower 10 (17 - e0)) in
  let decpt := if m0 =? 10 ^ 17 then e0 + 1 else e0 in
  let ds := str_int (strip_zeros 17 m0) in
  let n := Z.of_nat (String.length ds) in
  let fixed := (-4 <? decpt) && (decpt <=? 16) in
  let lead := Z.to_nat decpt in
  let body :=
    if fixed then
      if decpt <=? 0 then "0." ++ zeros (- decpt) ++ ds
      else if n <=? decpt then ds ++ zeros (decpt - n) ++ ".0"
      else substring 0 lead ds ++ "." ++ substring lead (Z.to_nat (n - decpt)) ds
    else
      substring 0 1 ds
      ++ (if 1 <? n then "." ++ substring 1 (Z.to_nat (n - 1)) ds else "")
      ++ "e" ++ (if decpt - 1 <? 0 then "-" else "+")
      ++ two_digits (Z.abs (decpt - 1)) in
  sg ++ body.

End FloatText.

Definition reference_runtime : Runtime := {|
  sha256 := SHA2.digest SHA2.sha256_params;
  hmac_sha512 := SHA2.hmac SHA2.sha512_params;
  b64encode := Base64.encode;
  b64decode := Base64.decode;
  float_of_str := FloatText.parse;
  str_float := FloatText.repr
|}.

(** ** What [requests] puts on the wire for a [data=] dict

    [requests.post(url, data=d)] with a dict [d] sends the body
    [urllib.parse.urlencode(items, doseq=True)]: every key and every value
    (a [str] as it is, a float through [str]) goes through [quote_plus], and
    the [key=value] pairs are joined by [&]. *)

Module Requests.

(** The characters [quote] never escapes: letters, digits and [_.-~]. *)
Definition always_safe (c : ascii) : bool :=
  let n := N_of_ascii c in
  ((65 <=? n) && (n <=? 90) || (97 <=? n) && (n <=? 122)
   || (48 <=? n) && (n <=? 57)
   || (n =? 95) || (n =? 46) || (n =? 45) || (n =? 126))%N.

Definition hex_digit (n : N) : ascii :=
  match String.get (N.to_nat n) "0123456789ABCDEF" with
  | Some c => c
  | None => "0"%char
  end.

(** [quote_plus(s, safe='')]: a space becomes [+], any other byte that is
    not always safe becomes [%XX]. *)
Fixpoint quote_plus (s : string) : string :=
  match s with
  | EmptyString => ""
  | String c s' =>
      if always_safe c then String c (quote_plus s')
      else if Ascii.eqb c " " then String "+" (quote_plus s')
      else
        let n := N_of_ascii c in
        String "%" (String (hex_digit (n / 16)) (String (hex_digit (n mod 16))
          (quote_plus s')))
  end.

Definition urlencode (query : list (string * string)) : string :=
  join "&" (map (fun kv => quote_plus (fst kv) ++ "=" ++ quote_plus (snd kv)) query).

(** The body sent for a [data=] dict. *)
Definition encode_params {RT : Runtime} (data : list (string * FieldValue))
    : string :=
  urlencode (map (fun kv => (fst kv, format (snd kv))) data).

End Requests.

(** The body of a request as it goes on the wire, for a form request. *)
Definition wire_body {RT : Runtime} (r : Request) : option string :=
  match body r with
  | FormData fields => Some (Requests.encode_params fields)
  | _ => None
  end.

(** ** Reading a run *)

(** The two signed requests of the program, recognised by what they are: a
    form POST to the endpoint under the base URL. *)
Definition is_form (r : Request) : bool :=
  match method r, body r with
  | POST, FormData _ => true
  | _, _ => false
  end.

Definition is_add_order (base_url : string) (r : Request) : bool :=
  is_form r && String.eqb (url r) (base_url ++ "/0/private/AddOrder").

Definition is_balance (base_url : string) (r : Request) : bool :=
  is_form r && String.eqb (url r) (base_url ++ "/0/private/Balance").

(** The value of a header of a request. *)
Definition header (name : string) (r : Request) : option string :=
  assoc name (headers r).

(** The request by which [send_discord_message] delivers an embed. *)
Definition discord_post (webhook_url : string) (e : Embed) : Request :=
  mkRequest POST webhook_url [] (JsonData (mkPayload None (Some [e]))).

(** A state with further log records. *)
Definition with_log (s : State) (records : list LogRecord) : State :=
  mkState (sent s) (reads s) (log s ++ records)%list.

(** The state in which [main] calls [ensure_sufficient_funds]. *)
Definition at_gate (cfg : Config) : State :=
  with_log initial
    [ LogBaseUrl (cfg_base_url cfg);
      LogLoaded (List.length (cfg_strategies cfg)) (cfg_dry_run cfg) ].

(** The signature as the specification words it:
    base64(HMAC-SHA512(base64-decode(secret), path || SHA256(nonce || body))). *)
Definition signature_spec {RT : Runtime} (secret nonce body path : string)
    : outcome string :=
  match b64decode secret with
  | Some key =>
      let message_hash := sha256 (encode nonce ++ encode body)%list in
      Ok (b64encode (hmac_sha512 key (encode path ++ message_hash)%list))
  | None => Raise (Exc "binascii.Error" "Incorrect padding")
  end.

(** The sum of the strategies' amounts, one after the other. *)
Fixpoint sum_amounts (strategies : list Strategy) : Q :=
  match strategies with
  | [] => 0
  | s :: rest => amount_eur s + sum_amounts rest
  end.

(** The fields of a market buy order, in the order the program declares
    them. *)
Definition order_fields (nonce : string) (volume : Q) (pair : string)
    : list (string * FieldValue) :=
  [ ("nonce", VStr nonce);
    ("ordertype", VStr "market");
    ("type", VStr "buy");
    ("volume", VFloat volume);
    ("pair", VStr pair) ].

(** What a dry run records for a strategy priced at [quote], a price and a
    volume. *)
Definition simulated (sq : Strategy * (Q * Q)) : Result :=
  DryRunResult (pair (fst sq)) (amount_eur (fst sq)) (fst (snd sq)) (snd (snd sq)).

(** The state in which a dry-run iteration ends once its strategy is priced:
    the volume and the simulation are logged and the notification is sent. *)
Definition after_dry_run (webhook : string) (strat : Strategy) (price volume : Q)
    (w : World) (s : State) : State :=
  snd (send_discord_message webhook ""
         (Some (DryRunEmbed (pair strat) (amount_eur strat) price volume)) w
         (with_log s [LogVolume volume price (pair strat);
                      LogDryRun (pair strat) (amount_eur strat) price volume])).

(** The state in which an iteration ends once its [try] block raised [e]: the
    exception is logged and the notification is sent. *)
Definition after_exception (webhook : string) (strat : Strategy) (e : exn)
    (w : World) (s : State) : State :=
  snd (send_discord_message webhook ""
         (Some (ExceptionEmbed (pair strat) (StrOfException e))) w
         (with_log s [LogStrategyException (pair strat) e])).

(** The pricing of every strategy of a dry run returns: from the state [s],
    the ticker request of each strategy returns a price and its volume
    computation returns a volume, each iteration starting where the one
    before ended.  [quotes] are the prices and volumes, in the order of the
    strategies, and [s_end] the state after the last iteration. *)
Inductive all_priced {RT : Runtime} (webhook base_url : string) (w : World)
    : list Strategy -> State -> list (Q * Q) -> State -> Prop :=
| priced_nil s : all_priced webhook base_url w [] s [] s
| priced_cons strat rest s price s1 volume s2 quotes s_end :
    get_ask_price (pair strat) base_url w
      (with_log s [LogProcessing (pair strat) (amount_eur strat)]) = (Ok price, s1) ->
    eur_to_volume (pair strat) (amount_eur strat) base_url w s1 = (Ok volume, s2) ->
    all_priced webhook base_url w rest
      (after_dry_run webhook strat price volume w s2) quotes s_end ->
    all_priced webhook base_url w (strat :: rest) s ((price, volume) :: quotes) s_end.

(** Whether an element of the results is the record of a dry run. *)
Definition is_dry_run_result (x : Result) : bool :=
  match x with DryRunResult _ _ _ _ => true | OrderResponse _ => false end.

(** A computation sends only requests that satisfy [P]: the requests sent
    grow by a list of such requests. *)
Definition emits {A} (P : Request -> Prop) (c : M A) : Prop :=
  forall w s, exists new,
    sent (snd (c w s)) = (sent s ++ new)%list /\ Forall P new.

(** A computation raises nothing that [except Exception] would let pass. *)
Definition raises_only_Exception {A} (c : M A) : Prop :=
  forall w s e s', c w s = (Raise e, s') -> is_Exception e = true.

(** A computation always returns. *)
Definition never_raises {A} (c : M A) : Prop :=
  forall w s, exists a, fst (c w s) = Ok a.

(** A pure result raises nothing but [Exception]s. *)
Definition pure_Exception {A} (o : outcome A) : Prop :=
  forall e, o = Raise e -> is_Exception e = true.

(** A computation that, unless it raises before sending anything, first
    sends a request that satisfies [P] and then only requests that satisfy
    [Q]. *)
Definition starts_with {A} (P Q : Request -> Prop) (c : M A) : Prop :=
  forall w s,
    (sent (snd (c w s)) = sent s /\ exists e, fst (c w s) = Raise e)
    \/ exists first more,
         sent (snd (c w s)) = (sent s ++ first :: more)%list
         /\ P first /\ Forall Q more.

(** A string of characters that [quote_plus] leaves alone. *)
Fixpoint all_safe (s : string) : bool :=
  match s with
  | EmptyString => true
  | String c s' => Requests.always_safe c && all_safe s'
  end.

(** ** Concrete environments *)

Module Scenario.

Definition base : string := "https://api.kraken.com".
Definition api_key : string := "key".
Definition api_secret : string :=
  "kQH5HW/8p1uGOVjbgWA7FunAmGO8lsSUXNsu3eow76sz84Q18fWxnyRzBHCd3pd5nE9qa99HAZtuZuj6F1huXg==".
Definition webhook : string := "https://discord.com/api/webhooks/1/token".

Definition replies (j : json) : NetOutcome := Responds (mkResponse 200 (Some j)).

Definition ticker_json (pair price : string) : json :=
  JObj [ ("error", JArr []);
         ("result", JObj [ (pair, JObj [ ("a", JArr [JStr price; JStr "1"; JStr "1.000"]) ]) ]) ].

Definition balance_json (balances : list (string * json)) : json :=
  JObj [ ("error", JArr []); ("result", JObj balances) ].

Definition order_json (txid : string) : json :=
  JObj [ ("error", JArr []); ("result", JObj [ ("txid", JArr [JStr txid]) ]) ].

Definition status_json : json :=
  JObj [ ("error", JArr []); ("result", JObj [ ("status", JStr "online") ]) ].

(** An exchange that is online, holds [balances], fills every order, and
    answers the ticker request for a pair as [ticker] says, given the
    position of the request in the run.  Any other URL is the webhook, which
    answers 204 with no body. *)
Definition exchange (balances : list (string * json))
    (ticker : nat -> Request -> NetOutcome) (clock : nat -> Q) : World :=
  {| net := fun n r =>
       if String.eqb (url r) (base ++ "/0/private/Balance")
       then replies (balance_json balances)
       else if String.eqb (url r) (base ++ "/0/public/SystemStatus")
       then replies status_json
       else if String.eqb (url r) (base ++ "/0/private/AddOrder")
       then replies (order_json "OUF4EM-FRGI2-MQMWZD")
       else if prefix (base ++ "/0/public/Ticker?pair=") (url r)
       then ticker n r
       else Responds (mkResponse 204 None);
     clock := clock |}.

(** A clock that advances by a second at every reading. *)
Definition seconds (k : nat) : Q := 1700000000 + inject_Z (Z.of_nat k).

(** A clock that advances by a tenth of a millisecond at every reading. *)
Definition fast_clock (k : nat) : Q :=
  1700000000 + inject_Z (Z.of_nat (S k)) / 10000.

Definition btc : Strategy := mkStrategy "XXBTZEUR" 100.
Definition eth : Strategy := mkStrategy "XETHZEUR" 150.
Definition sol : Strategy := mkStrategy "SOLEUR" 50.

Definition price_of (r : Request) : NetOutcome :=
  if String.eqb (url r) (base ++ "/0/public/Ticker?pair=XXBTZEUR")
  then replies (ticker_json "XXBTZEUR" "50000.00000")
  else if String.eqb (url r) (base ++ "/0/public/Ticker?pair=XETHZEUR")
  then replies (ticker_json "XETHZEUR" "2500.00")
  else replies (ticker_json "SOLEUR" "125.00").

(** The ticker of the second strategy's pair times out. *)
Definition eth_ticker_down (r : Request) : NetOutcome :=
  if String.eqb (url r) (base ++ "/0/public/Ticker?pair=XETHZEUR")
  then Fails "ReadTimeout" "Read timed out. (read timeout=15)"
  else price_of r.

(** The ask price moves between two ticker requests: 50000 at the request in
    position [first], 40000 afterwards. *)
Definition moving_ticker (first : nat) (n : nat) (r : Request) : NetOutcome :=
  if Nat.eqb n first
  then replies (ticker_json "XXBTZEUR" "50000.0")
  else replies (ticker_json "XXBTZEUR" "40000.0").

Definition rich : World :=
  exchange [ ("ZEUR", JStr "299.999999995"); ("XXBT", JStr "0.0100000000") ]
    (fun _ => price_of) seconds.

Definition poor : World :=
  exchange [ ("ZEUR", JStr "250"); ("XXBT", JStr "0.0100000000") ]
    (fun _ => price_of) seconds.

Definition no_euro : World :=
  exchange [ ("XXBT", JStr "0.0100000000") ] (fun _ => price_of) seconds.

Definition flaky : World :=
  exchange [ ("ZEUR", JStr "1000.0000") ] (fun _ => eth_ticker_down) seconds.

Definition volatile : World :=
  exchange [ ("ZEUR", JStr "1000.0000") ] (moving_ticker 0) seconds.

Definition hurried : World :=
  exchange [ ("ZEUR", JStr "1000.0000") ] (fun _ => price_of) fast_clock.

Definition config (webhook : string) (dry_run : bool) : Config :=
  mkConfig api_key api_secret webhook base [btc; eth; sol] dry_run.

(** An environment that differs from [w] in its answer to one URL. *)
Definition override (u : string) (answer : NetOutcome) (w : World) : World :=
  {| net := fun n r => if String.eqb (url r) u then answer else net w n r;
     clock := clock w |}.

(** The exchange is in maintenance. *)
Definition offline : World :=
  override (base ++ "/0/public/SystemStatus")
    (replies (JObj [ ("error", JArr []);
                     ("result", JObj [ ("status", JStr "maintenance") ]) ]))
    rich.

(** The exchange refuses the API key. *)
Definition locked_out : World :=
  override (base ++ "/0/private/Balance")
    (replies (JObj [ ("error", JArr [JStr "EAPI:Invalid key"]) ]))
    rich.

(** The exchange refuses every order. *)
Definition rejecting : World :=
  override (base ++ "/0/private/AddOrder")
    (replies (JObj [ ("error", JArr [JStr "EOrder:Insufficient funds"]) ]))
    rich.

(** The ticker answers under another name of the pair. *)
Definition renamed : World :=
  override (base ++ "/0/public/Ticker?pair=XXBTZEUR")
    (replies (ticker_json "XBTEUR" "50000.00000"))
    rich.

(** The signature of a string under the scenarios' secret, or the empty
    string when there is none. *)
Definition signature_of (data nonce path : string) : string :=
  match @get_signature reference_runtime api_secret data nonce path with
  | Ok sig => sig
  | Raise _ => ""
  end.

End Scenario.

(** ** Properties *)

(** *** The monad *)

Lemma bind_ok {A B} (c : M A) (k : A -> M B) w s a s' :
  c w s = (Ok a, s') -> bind c k w s = k a w s'.
Proof. intros H. unfold bind. rewrite H. reflexivity. Qed.

Lemma bind_raise {A B} (c : M A) (k : A -> M B) w s e s' :
  c w s = (Raise e, s') -> bind c k w s = (Raise e, s').
Proof. intros H. unfold bind. rewrite H. reflexivity. Qed.

Lemma try_except_ok {A} (c : M A) h w s a s' :
  c w s = (Ok a, s') -> try_except c h w s = (Ok a, s').
Proof. intros H. unfold try_except. rewrite H. reflexivity. Qed.

Lemma try_except_caught {A} (c : M A) h w s cls msg s' :
  c w s = (Raise (Exc cls msg), s') ->
  try_except c h w s = h (Exc cls msg) w s'.
Proof. intros H. unfold try_except. rewrite H. reflexivity. Qed.

(** *** Computations that send only certain requests *)

Section Emits.

Context {A : Type} (P : Request -> Prop).

Lemma emits_ret (a : A) : emits P (ret a).
Proof. intros w s. exists []. simpl. rewrite app_nil_r. auto. Qed.

Lemma emits_raise (e : exn) : emits P (@raise A e).
Proof. intros w s. exists []. simpl. rewrite app_nil_r. auto. Qed.

Lemma emits_lift (o : outcome A) : emits P (lift o).
Proof. intros w s. exists []. simpl. rewrite app_nil_r. auto. Qed.

Lemma emits_try_except (c : M A) h :
  emits P c -> (forall e, emits P (h e)) -> emits P (try_except c h).
Proof.
  intros Hc Hh w s. unfold try_except.
  destruct (Hc w s) as [n1 [E1 F1]].
  destruct (c w s) as [[a | e] s1]; simpl in *.
  - exists n1. auto.
  - destruct (is_Exception e); simpl.
    + destruct (Hh e w s1) as [n2 [E2 F2]].
      exists (n1 ++ n2)%list. rewrite E2, E1, app_assoc. split; auto.
      apply Forall_app; auto.
    + exists n1. auto.
Qed.

Lemma emits_weaken (Q : Request -> Prop) (c : M A) :
  (forall r, Q r -> P r) -> emits Q c -> emits P c.
Proof.
  intros HQ Hc w s. destruct (Hc w s) as [n [E F]].
  exists n. split; auto. eapply Forall_impl; eauto.
Qed.

End Emits.

Lemma emits_bind {A B} (P : Request -> Prop) (c : M A) (k : A -> M B) :
  emits P c -> (forall a, emits P (k a)) -> emits P (bind c k).
Proof.
  intros Hc Hk w s. unfold bind.
  destruct (Hc w s) as [n1 [E1 F1]].
  destruct (c w s) as [[a | e] s1]; simpl in *.
  - destruct (Hk a w s1) as [n2 [E2 F2]].
    exists (n1 ++ n2)%list. rewrite E2, E1, app_assoc. split; auto.
    apply Forall_app; auto.
  - exists n1. auto.
Qed.

Lemma emits_logger P r : emits P (logger r).
Proof. intros w s. exists []. simpl. rewrite app_nil_r. auto. Qed.

Lemma emits_time_time P : emits P time_time.
Proof. intros w s. exists []. simpl. rewrite app_nil_r. auto. Qed.

Lemma emits_send (P : Request -> Prop) r : P r -> emits P (send r).
Proof.
  intros H w s. exists [r]. unfold send.
  destruct (net w (List.length (sent s)) r); simpl; auto.
Qed.

Lemma emits_response_json P r : emits P (response_json r).
Proof.
  unfold response_json. destruct (json_body r);
    [apply emits_ret | apply emits_raise].
Qed.

(** One step of a proof that a computation sends only certain requests:
    follow the structure of the computation. *)
Ltac emits_step :=
  lazymatch goal with
  | |- emits _ (bind _ _) => apply emits_bind; [| intros ?]
  | |- emits _ (ret _) => apply emits_ret
  | |- emits _ (raise _) => apply emits_raise
  | |- emits _ (lift _) => apply emits_lift
  | |- emits _ (logger _) => apply emits_logger
  | |- emits _ time_time => apply emits_time_time
  | |- emits _ (response_json _) => apply emits_response_json
  | |- emits _ (try_except _ _) => apply emits_try_except; [| intros ?]
  | |- emits _ (send _) => apply emits_send
  | |- emits _ (if ?b then _ else _) => destruct b
  | |- emits _ (match ?x with _ => _ end) => destruct x
  end.

Ltac emits_walk := repeat emits_step.

Lemma emits_send_discord_message (P : Request -> Prop) webhook_url text embed :
  (forall p, P (mkRequest POST webhook_url [] (JsonData p))) ->
  emits P (send_discord_message webhook_url text embed).
Proof.
  intros H. unfold send_discord_message, requests_post_json.
  emits_walk. apply H.
Qed.

Section EmitsProgram.

Context {RT : Runtime}.

Lemma emits_get_nonce P : emits P get_nonce.
Proof. unfold get_nonce. emits_walk. Qed.

Lemma emits_get_ask_price (P : Request -> Prop) pair base_url :
  (forall u, P (mkRequest GET u [] NoBody)) ->
  emits P (get_ask_price pair base_url).
Proof.
  intros H. unfold get_ask_price, requests_get. emits_walk. apply H.
Qed.

Lemma emits_eur_to_volume (P : Request -> Prop) pair amount base_url :
  (forall u, P (mkRequest GET u [] NoBody)) ->
  emits P (eur_to_volume pair amount base_url).
Proof.
  intros H. unfold eur_to_volume.
  apply emits_bind; [apply emits_get_ask_price, H | intros ?].
  emits_walk.
Qed.

Lemma emits_check_kraken_status (P : Request -> Prop) base_url :
  (forall u, P (mkRequest GET u [] NoBody)) ->
  emits P (check_kraken_status base_url).
Proof.
  intros H. unfold check_kraken_status, requests_get. emits_walk. apply H.
Qed.

End EmitsProgram.

(** *** The requests of each function *)

Lemma append_eqb_l (p a b : string) :
  String.eqb (p ++ a) (p ++ b) = String.eqb a b.
Proof.
  induction p as [| c p IH]; simpl; [reflexivity |].
  rewrite Ascii.eqb_refl. exact IH.
Qed.

Lemma balance_is_not_add_order base_url r :
  is_balance base_url r = true -> is_add_order base_url r = false.
Proof.
  unfold is_balance, is_add_order. intros H.
  apply andb_true_iff in H as [Hf Hu]. rewrite Hf. simpl.
  apply String.eqb_eq in Hu. rewrite Hu. rewrite append_eqb_l. reflexivity.
Qed.

Lemma add_order_is_not_balance base_url r :
  is_add_order base_url r = true -> is_balance base_url r = false.
Proof.
  intros H. destruct (is_balance base_url r) eqn:E; [| reflexivity].
  apply balance_is_not_add_order in E. congruence.
Qed.

Lemma not_form_not_add_order base_url r :
  is_form r = false -> is_add_order base_url r = false.
Proof. unfold is_add_order. intros ->. reflexivity. Qed.

Lemma not_form_not_balance base_url r :
  is_form r = false -> is_balance base_url r = false.
Proof. unfold is_balance. intros ->. reflexivity. Qed.

Section Requests.

Context {RT : Runtime}.

Lemma emits_get_balance api_key api_secret base_url :
  emits (fun r => is_balance base_url r = true)
    (get_balance api_key api_secret base_url).
Proof.
  unfold get_balance, requests_post.
  apply emits_bind; [apply emits_get_nonce | intros nonce].
  emits_walk. unfold is_balance. simpl. apply String.eqb_refl.
Qed.

Lemma emits_pass_market_order api_key api_secret pair volume base_url :
  emits (fun r => is_add_order base_url r = true)
    (pass_market_order api_key api_secret pair volume base_url).
Proof.
  unfold pass_market_order, requests_post.
  apply emits_bind; [apply emits_get_nonce | intros nonce].
  emits_walk. unfold is_add_order. simpl. apply String.eqb_refl.
Qed.

(** The balance check sends the balance request and notifications, nothing
    else. *)
Lemma emits_ensure_sufficient_funds api_key api_secret strategies webhook base_url :
  emits (fun r => is_add_order base_url r = false)
    (ensure_sufficient_funds api_key api_secret strategies webhook base_url).
Proof.
  unfold ensure_sufficient_funds.
  apply emits_bind.
  { eapply emits_weaken; [| apply emits_get_balance].
    apply balance_is_not_add_order. }
  intros bal_resp. emits_walk;
    apply emits_send_discord_message; intros; reflexivity.
Qed.

(** A dry run sends ticker requests and notifications only: no form request
    at all. *)
Lemma emits_strategy_body_dry_run api_key api_secret webhook base_url strat results :
  emits (fun r => is_form r = false)
    (strategy_body api_key api_secret webhook base_url true strat results).
Proof.
  unfold strategy_body.
  apply emits_bind; [apply emits_logger | intros _].
  apply emits_bind; [apply emits_get_ask_price; reflexivity | intros price].
  apply emits_bind; [apply emits_eur_to_volume; reflexivity | intros volume].
  emits_walk. apply emits_send_discord_message. reflexivity.
Qed.

Lemma emits_strategy_handler webhook strat results e :
  emits (fun r => is_form r = false)
    (strategy_handler webhook strat results e).
Proof.
  unfold strategy_handler. emits_walk.
  apply emits_send_discord_message. reflexivity.
Qed.

Lemma emits_strategies_loop_dry_run api_key api_secret webhook base_url strategies :
  forall results,
  emits (fun r => is_form r = false)
    (strategies_loop api_key api_secret webhook base_url true strategies results).
Proof.
  induction strategies as [| strat rest IH]; intros results; simpl.
  - apply emits_ret.
  - apply emits_bind; [| intros results'; apply IH].
    unfold process_strategy. apply emits_try_except.
    + apply emits_strategy_body_dry_run.
    + intros e. apply emits_strategy_handler.
Qed.

(** Whatever the mode, the strategy loop sends no balance request. *)
Lemma emits_strategy_body api_key api_secret webhook base_url dry_run strat results :
  emits (fun r => is_balance base_url r = false)
    (strategy_body api_key api_secret webhook base_url dry_run strat results).
Proof.
  unfold strategy_body.
  apply emits_bind; [apply emits_logger | intros _].
  apply emits_bind; [apply emits_get_ask_price; reflexivity | intros price].
  apply emits_bind; [apply emits_eur_to_volume; reflexivity | intros volume].
  apply emits_bind; [apply emits_logger | intros _].
  destruct dry_run.
  - emits_walk. apply emits_send_discord_message. reflexivity.
  - apply emits_bind.
    { eapply emits_weaken; [| apply emits_pass_market_order].
      apply add_order_is_not_balance. }
    intros order_resp. emits_walk;
      apply emits_send_discord_message; reflexivity.
Qed.

Lemma emits_strategies_loop api_key api_secret webhook base_url dry_run strategies :
  forall results,
  emits (fun r => is_balance base_url r = false)
    (strategies_loop api_key api_secret webhook base_url dry_run strategies results).
Proof.
  induction strategies as [| strat rest IH]; intros results; simpl.
  - apply emits_ret.
  - apply emits_bind; [| intros results'; apply IH].
    unfold process_strategy. apply emits_try_except.
    + apply emits_strategy_body.
    + intros e. eapply emits_weaken; [| apply emits_strategy_handler].
      apply not_form_not_balance.
Qed.

End Requests.

(** *** What a computation can raise *)

Lemma roe_ret {A} (a : A) : raises_only_Exception (ret a).
Proof. intros w s e s' H. discriminate. Qed.

Lemma roe_raise {A} cls msg : raises_only_Exception (@raise A (Exc cls msg)).
Proof. intros w s e s' H. inversion H. reflexivity. Qed.

Lemma roe_lift {A} (o : outcome A) :
  pure_Exception o -> raises_only_Exception (lift o).
Proof. intros Ho w s e s' H. inversion H. apply Ho. assumption. Qed.

Lemma roe_logger r : raises_only_Exception (logger r).
Proof. intros w s e s' H. discriminate. Qed.

Lemma roe_time_time : raises_only_Exception time_time.
Proof. intros w s e s' H. discriminate. Qed.

Lemma roe_send r : raises_only_Exception (send r).
Proof.
  intros w s e s' H. unfold send in H.
  destruct (net w (List.length (sent s)) r); inversion H. reflexivity.
Qed.

Lemma roe_response_json r : raises_only_Exception (response_json r).
Proof.
  unfold response_json. destruct (json_body r); [apply roe_ret | apply roe_raise].
Qed.

Lemma roe_bind {A B} (c : M A) (k : A -> M B) :
  raises_only_Exception c -> (forall a, raises_only_Exception (k a)) ->
  raises_only_Exception (bind c k).
Proof.
  intros Hc Hk w s e s' H. unfold bind in H.
  destruct (c w s) as [[a | e0] s1] eqn:E.
  - eapply Hk; eauto.
  - inversion H; subst. eapply Hc; eauto.
Qed.

Lemma never_raises_only {A} (c : M A) :
  never_raises c -> raises_only_Exception c.
Proof.
  intros Hc w s e s' H. destruct (Hc w s) as [a Ha].
  rewrite H in Ha. discriminate.
Qed.

Lemma pure_dict_get d k default : pure_Exception (dict_get d k default).
Proof. intros e H. destruct d; inversion H; reflexivity. Qed.

Lemma pure_getitem d k : pure_Exception (getitem d k).
Proof.
  intros e H. unfold getitem in H.
  destruct d; try (inversion H; reflexivity).
  destruct (assoc k members); inversion H; reflexivity.
Qed.

Lemma pure_getitem0 x : pure_Exception (getitem0 x).
Proof.
  intros e H. unfold getitem0 in H.
  destruct x as [| | | s | items |]; try (inversion H; reflexivity).
  - destruct s; inversion H; reflexivity.
  - destruct items; inversion H; reflexivity.
Qed.

Lemma pure_create_error_embed pair volume price error :
  pure_Exception (create_error_embed pair volume price error).
Proof.
  intros e H. unfold create_error_embed in H.
  destruct (joinable error); inversion H; reflexivity.
Qed.

Lemma pure_create_success_embed pair volume price txid :
  pure_Exception (create_success_embed pair volume price txid).
Proof.
  intros e H. unfold create_success_embed in H.
  destruct (truthy txid && negb (joinable txid)); inversion H; reflexivity.
Qed.

Create HintDb pure.

#[local] Hint Resolve pure_dict_get pure_getitem pure_getitem0
  pure_create_error_embed pure_create_success_embed : pure.

Ltac roe_step :=
  lazymatch goal with
  | |- raises_only_Exception (bind _ _) => apply roe_bind; [| intros ?]
  | |- raises_only_Exception (ret _) => apply roe_ret
  | |- raises_only_Exception (raise (Exc _ _)) => apply roe_raise
  | |- raises_only_Exception (lift _) => apply roe_lift; auto with pure
  | |- raises_only_Exception (logger _) => apply roe_logger
  | |- raises_only_Exception time_time => apply roe_time_time
  | |- raises_only_Exception (send _) => apply roe_send
  | |- raises_only_Exception (response_json _) => apply roe_response_json
  | |- raises_only_Exception (if ?b then _ else _) => destruct b
  end.

Ltac roe_walk := repeat roe_step.

(** *** The notifier *)

(** [send_discord_message] returns normally in every environment. *)
Lemma send_discord_message_returns webhook_url text embed :
  never_raises (send_discord_message webhook_url text embed).
Proof.
  intros w s. exists tt. unfold send_discord_message.
  destruct (String.eqb webhook_url ""); [reflexivity |].
  unfold try_except, bind, requests_post_json, send.
  destruct (net w _ _) as [resp | cls msg]; simpl.
  - destruct (300 <=? status_code resp)%Z; reflexivity.
  - reflexivity.
Qed.

Lemma send_discord_message_run webhook_url text embed w s :
  send_discord_message webhook_url text embed w s
  = (Ok tt, snd (send_discord_message webhook_url text embed w s)).
Proof.
  destruct (send_discord_message_returns webhook_url text embed w s) as [[] H].
  destruct (send_discord_message webhook_url text embed w s) as [r s'].
  simpl in *. subst. reflexivity.
Qed.

Section Raises.

Context {RT : Runtime}.

Lemma pure_float x : pure_Exception (float x).
Proof.
  intros e H. unfold float in H.
  destruct x; try (inversion H; reflexivity).
  destruct (float_of_str s); inversion H; reflexivity.
Qed.

Lemma pure_get_signature private_key data nonce path :
  pure_Exception (get_signature private_key data nonce path).
Proof.
  intros e H. unfold get_signature, sign in H.
  destruct (b64decode private_key); inversion H; reflexivity.
Qed.

#[local] Hint Resolve pure_float pure_get_signature : pure.

Lemma roe_get_nonce : raises_only_Exception get_nonce.
Proof. unfold get_nonce. roe_walk. Qed.

Lemma roe_get_ask_price pair base_url :
  raises_only_Exception (get_ask_price pair base_url).
Proof. unfold get_ask_price, requests_get. roe_walk. Qed.

Lemma roe_eur_to_volume pair amount base_url :
  raises_only_Exception (eur_to_volume pair amount base_url).
Proof.
  unfold eur_to_volume.
  apply roe_bind; [apply roe_get_ask_price | intros price]. roe_walk.
Qed.

Lemma roe_pass_market_order api_key api_secret pair volume base_url :
  raises_only_Exception (pass_market_order api_key api_secret pair volume base_url).
Proof.
  unfold pass_market_order, requests_post.
  apply roe_bind; [apply roe_get_nonce | intros nonce]. roe_walk.
Qed.

(** Nothing in the [try] block of the loop raises [SystemExit]. *)
Lemma roe_strategy_body api_key api_secret webhook base_url dry_run strat results :
  raises_only_Exception
    (strategy_body api_key api_secret webhook base_url dry_run strat results).
Proof.
  unfold strategy_body.
  apply roe_bind; [apply roe_logger | intros _].
  apply roe_bind; [apply roe_get_ask_price | intros price].
  apply roe_bind; [apply roe_eur_to_volume | intros volume].
  apply roe_bind; [apply roe_logger | intros _].
  destruct dry_run.
  - roe_walk. apply never_raises_only, send_discord_message_returns.
  - apply roe_bind; [apply roe_pass_market_order | intros order_resp].
    roe_walk; apply never_raises_only, send_discord_message_returns.
Qed.

Lemma strategy_handler_run webhook strat results e w s :
  strategy_handler webhook strat results e w s
  = (Ok results,
     snd (send_discord_message webhook ""
            (Some (create_exception_embed (pair strat) (StrOfException e))) w
            (with_log s [LogStrategyException (pair strat) e]))).
Proof.
  unfold strategy_handler, bind. simpl.
  rewrite send_discord_message_run. reflexivity.
Qed.

(** An iteration of the loop always returns. *)
Lemma process_strategy_returns api_key api_secret webhook base_url dry_run strat results :
  never_raises
    (process_strategy api_key api_secret webhook base_url dry_run strat results).
Proof.
  intros w s. unfold process_strategy, try_except.
  destruct (strategy_body _ _ _ _ _ _ _ w s) as [[a | e] s1] eqn:E.
  - exists a. reflexivity.
  - rewrite (roe_strategy_body _ _ _ _ _ _ _ _ _ _ _ E).
    rewrite strategy_handler_run. exists results. reflexivity.
Qed.

Lemma strategies_loop_returns api_key api_secret webhook base_url dry_run strategies :
  forall results,
  never_raises
    (strategies_loop api_key api_secret webhook base_url dry_run strategies results).
Proof.
  induction strategies as [| strat rest IH]; intros results w s; simpl.
  - exists results. reflexivity.
  - unfold bind.
    destruct (process_strategy_returns api_key api_secret webhook base_url
                dry_run strat results w s) as [results' H].
    destruct (process_strategy _ _ _ _ _ _ _ w s) as [r s1]. simpl in H. subst.
    apply IH.
Qed.

End Raises.

(** *** The balance check *)

Lemma Qltb_lt x y : Qltb x y = true <-> (x < y)%Q.
Proof.
  unfold Qltb. rewrite Qlt_alt. destruct (x ?= y)%Q; split; congruence.
Qed.

Lemma Qltb_ge x y : Qltb x y = false <-> (y <= x)%Q.
Proof.
  split; intros H.
  - apply Qnot_lt_le. intros L. apply Qltb_lt in L. congruence.
  - destruct (Qltb x y) eqn:E; [| reflexivity].
    apply Qltb_lt in E. apply Qle_not_lt in H. contradiction.
Qed.

Lemma fold_amounts strategies : forall acc,
  (fold_left (fun acc s => acc + amount_eur s) strategies acc
   == acc + sum_amounts strategies)%Q.
Proof.
  induction strategies as [| s rest IH]; intros acc; simpl.
  - ring.
  - rewrite IH. ring.
Qed.

(** [sum] over the strategies is the sum of their amounts. *)
Lemma total_required_sum strategies :
  (total_required strategies == sum_amounts strategies)%Q.
Proof. unfold total_required. rewrite fold_amounts. ring. Qed.

Lemma with_log_app s l1 l2 :
  with_log (with_log s l1) l2 = with_log s (l1 ++ l2)%list.
Proof. unfold with_log. simpl. rewrite app_assoc. reflexivity. Qed.

Lemma logger_run r w s : logger r w s = (Ok tt, with_log s [r]).
Proof. reflexivity. Qed.

Section Gate.

Context {RT : Runtime}.

(** What the balance check does once the balance response is in: it compares
    and either returns, or logs, notifies and exits. *)
Lemma ensure_sufficient_funds_run api_key api_secret strategies webhook base_url
    w s bal_resp s1 error balances available :
  get_balance api_key api_secret base_url w s = (Ok bal_resp, s1) ->
  dict_get bal_resp "error" JNull = Ok error ->
  truthy error = false ->
  dict_get bal_resp "result" (JObj []) = Ok balances ->
  available_eur balances = Ok available ->
  let required := total_required strategies in
  ensure_sufficient_funds api_key api_secret strategies webhook base_url w s
  = if Qltb (available + 1e-8)%Q required
    then (Raise (SystemExit "Insufficient EUR balance. Trades cancelled."),
          snd (send_discord_message webhook ""
                 (Some (create_insufficient_funds_embed required available)) w
                 (with_log s1 [LogBalanceCheck required available;
                               LogInsufficient required available])))
    else (Ok tt, with_log s1 [LogBalanceCheck required available]).
Proof.
  intros Hb He Ht Hr Ha required.
  unfold ensure_sufficient_funds.
  rewrite (bind_ok _ _ _ _ _ _ Hb).
  unfold bind at 1. unfold lift at 1. rewrite He, Ht.
  unfold bind at 1. unfold lift at 1. rewrite Hr.
  unfold bind at 1. unfold lift at 1. rewrite Ha.
  unfold bind at 1. rewrite logger_run.
  fold required.
  destruct (Qltb (available + 1e-8)%Q required); [| reflexivity].
  unfold bind at 1. rewrite logger_run, with_log_app. simpl app.
  unfold bind. rewrite send_discord_message_run. reflexivity.
Qed.

(** The run ends where the balance check raises. *)
Lemma main_stops_at_gate cfg w e s' :
  ensure_sufficient_funds (cfg_api_key cfg) (cfg_api_secret cfg)
    (cfg_strategies cfg) (cfg_discord_webhook cfg) (cfg_base_url cfg)
    w (at_gate cfg) = (Raise e, s') ->
  main cfg w initial = (Raise e, s').
Proof.
  intros H. unfold main.
  unfold bind at 1. rewrite logger_run.
  unfold bind at 1. rewrite logger_run, with_log_app. simpl app.
  fold (at_gate cfg).
  apply bind_raise. exact H.
Qed.

End Gate.

(** *** Integers and their decimal strings *)

Lemma int_nonneg x : (0 <= x)%Q -> int x = Qfloor x.
Proof.
  intros H. unfold int, Qfloor. destruct x as [n d]. simpl.
  apply Z.quot_div_nonneg; [| reflexivity].
  unfold Qle in H. simpl in H. lia.
Qed.

Lemma int_nonpos x : (x <= 0)%Q -> int x = Qceiling x.
Proof.
  intros H. unfold int, Qceiling, Qfloor. destruct x as [n d]. simpl.
  unfold Qle in H. simpl in H.
  rewrite <- (Z.opp_involutive n) at 1.
  rewrite Z.quot_opp_l by discriminate.
  rewrite Z.quot_div_nonneg; [reflexivity | lia | reflexivity].
Qed.

Lemma int_sign_nonneg x : (0 <= x)%Q -> (0 <= int x)%Z.
Proof.
  intros H. rewrite int_nonneg by assumption.
  change 0%Z with (Qfloor 0). apply Qfloor_resp_le. assumption.
Qed.

Lemma int_sign_nonpos x : (x <= 0)%Q -> (int x <= 0)%Z.
Proof.
  intros H. rewrite int_nonpos by assumption.
  change 0%Z with (Qceiling 0). apply Qceiling_resp_le. assumption.
Qed.

(** Truncation never reverses an order. *)
Lemma int_monotone x y : (x <= y)%Q -> (int x <= int y)%Z.
Proof.
  intros H.
  destruct (Qlt_le_dec x 0) as [Hx | Hx]; destruct (Qlt_le_dec y 0) as [Hy | Hy].
  - rewrite !int_nonpos by (apply Qlt_le_weak; assumption).
    apply Qceiling_resp_le. assumption.
  - apply Z.le_trans with 0%Z.
    + apply int_sign_nonpos, Qlt_le_weak. assumption.
    + apply int_sign_nonneg. assumption.
  - exfalso. apply (Qlt_irrefl 0).
    apply Qle_lt_trans with y; [| assumption].
    apply Qle_trans with x; assumption.
  - rewrite !int_nonneg by assumption. apply Qfloor_resp_le. assumption.
Qed.

(** From zero on, values a unit apart truncate to different integers. *)
Lemma int_strict x y : (0 <= x)%Q -> (x + 1 <= y)%Q -> (int x < int y)%Z.
Proof.
  intros Hx H.
  assert (0 <= y)%Q as Hy.
  { apply Qle_trans with (x + 1)%Q; [| assumption].
    apply Qle_trans with x; [assumption |].
    rewrite <- (Qplus_0_r x) at 1. apply Qplus_le_r. discriminate. }
  rewrite !int_nonneg by assumption.
  assert (Qfloor x + 1 <= Qfloor y)%Z; [| lia].
  rewrite <- (Qfloor_Z (Qfloor x + 1)). apply Qfloor_resp_le.
  apply Qle_trans with (x + 1)%Q; [| assumption].
  rewrite inject_Z_plus. apply Qplus_le_l. apply Qfloor_le.
Qed.

(** [int(str(n)) == n]. *)
Lemma int_str_int n : int_str (str_int n) = Some n.
Proof.
  unfold int_str, str_int.
  rewrite NilZero.isi.
  - simpl. rewrite DecimalZ.of_to. reflexivity.
  - destruct n; simpl; try discriminate.
    intros H. inversion H as [H']. revert H'. apply Unsigned.to_uint_nonnil.
  - destruct n; simpl; try discriminate.
    intros H. inversion H as [H']. revert H'. apply Unsigned.to_uint_nonnil.
Qed.

Lemma str_int_injective n m : str_int n = str_int m -> n = m.
Proof.
  intros H. apply (f_equal int_str) in H. rewrite !int_str_int in H.
  congruence.
Qed.

Lemma encode_app a b : encode (a ++ b) = (encode a ++ encode b)%list.
Proof.
  unfold encode, list_byte_of_string.
  rewrite <- map_app. f_equal.
  induction a as [| c a IH]; simpl; [reflexivity | rewrite IH; reflexivity].
Qed.

Lemma get_nonce_run w s :
  get_nonce w s
  = (Ok (str_int (int (clock w (reads s) * 1000))),
     mkState (sent s) (S (reads s)) (log s)).
Proof. reflexivity. Qed.

(** *** The claims *)

(** C1. For every secret, nonce, serialized body and path, the signer returns
    base64(HMAC-SHA512(key = base64-decode(secret), message = path bytes
    followed by SHA256(nonce bytes followed by body bytes))), and raises when
    the secret is not base64.  The result depends on these four inputs only:
    in any two environments and states, two calls with the same inputs give
    the same signature. *)
Theorem get_signature_spec {RT : Runtime} (secret nonce body path : string) :
  get_signature secret body nonce path = signature_spec secret nonce body path
  /\ forall w1 s1 w2 s2,
       fst (lift (get_signature secret body nonce path) w1 s1)
       = fst (lift (get_signature secret body nonce path) w2 s2).
Proof.
  split; [| reflexivity].
  unfold get_signature, sign, signature_spec.
  rewrite encode_app. reflexivity.
Qed.

(** The example of the exchange's API documentation, on the reference
    implementation of the primitives. *)
Example get_signature_reference_vector :
  @get_signature reference_runtime Scenario.api_secret
    "nonce=1616492376594&ordertype=limit&pair=XBTUSD&price=37500&type=buy&volume=1.25"
    "1616492376594" "/0/private/AddOrder"
  = Ok "4/dpxb3iT4tp/ZCVEwSnEsLxx0bqyhLpdfOpc6fn7OR8+UClSV5n9E6aSS8MPtnRfp32bAb0nmbRn6H8ndwLUQ==".
Proof. vm_compute. reflexivity. Qed.

(** C7, as stated, fails: two successive nonce generations a tenth of a
    millisecond apart, on a clock that strictly advances, produce the same
    nonce. *)
Lemma get_nonce_repeats_within_a_millisecond :
  let first := get_nonce Scenario.hurried initial in
  let second := get_nonce Scenario.hurried (snd first) in
  (clock Scenario.hurried 0 < clock Scenario.hurried 1)%Q
  /\ fst first = Ok "1700000000000"
  /\ fst second = Ok "1700000000000".
Proof. vm_compute. repeat split. Qed.

(** C7, amended.  A nonce is the decimal string of the clock reading in whole
    milliseconds.  Of two successive generations the later nonce is never
    smaller when the clock did not go back, and it is strictly greater when
    the clock, at or after the epoch, advanced by a millisecond or more. *)
Theorem get_nonce_monotone w s n1 s1 n2 s2 :
  get_nonce w s = (Ok n1, s1) ->
  get_nonce w s1 = (Ok n2, s2) ->
  let t1 := clock w (reads s) in
  let t2 := clock w (S (reads s)) in
  exists z1 z2,
    int_str n1 = Some z1 /\ int_str n2 = Some z2
    /\ z1 = int (t1 * 1000) /\ z2 = int (t2 * 1000)
    /\ ((t1 <= t2)%Q -> (z1 <= z2)%Z)
    /\ ((0 <= t1)%Q -> (t1 + 1 / 1000 <= t2)%Q -> (z1 < z2)%Z /\ n1 <> n2).
Proof.
  intros H1 H2 t1 t2.
  rewrite get_nonce_run in H1. inversion H1; subst n1 s1; clear H1.
  rewrite get_nonce_run in H2. simpl in H2. inversion H2; subst n2 s2; clear H2.
  fold t1 t2.
  exists (int (t1 * 1000)), (int (t2 * 1000)).
  rewrite !int_str_int. repeat split.
  - intros H. apply int_monotone. apply Qmult_le_compat_r; [assumption | discriminate].
  - apply int_strict.
    + apply Qmult_le_0_compat; [assumption | discriminate].
    + apply Qle_trans with ((t1 + 1 / 1000) * 1000)%Q.
      * apply Qle_lteq. right. field.
      * apply Qmult_le_compat_r; [assumption | discriminate].
  - intros E. apply str_int_injective in E.
    assert (int (t1 * 1000) < int (t2 * 1000))%Z; [| lia].
    apply int_strict.
    + apply Qmult_le_0_compat; [assumption | discriminate].
    + apply Qle_trans with ((t1 + 1 / 1000) * 1000)%Q.
      * apply Qle_lteq. right. field.
      * apply Qmult_le_compat_r; [assumption | discriminate].
Qed.

Lemma get_nonce_monotone_witness :
  exists z1 z2,
    int_str "1700000000000" = Some z1 /\ int_str "1700000001000" = Some z2
    /\ z1 = int (Scenario.seconds 0 * 1000) /\ z2 = int (Scenario.seconds 1 * 1000)
    /\ ((Scenario.seconds 0 <= Scenario.seconds 1)%Q -> (z1 <= z2)%Z)
    /\ ((0 <= Scenario.seconds 0)%Q ->
        (Scenario.seconds 0 + 1 / 1000 <= Scenario.seconds 1)%Q ->
        (z1 < z2)%Z /\ "1700000000000" <> "1700000001000").
Proof.
  apply (get_nonce_monotone Scenario.rich initial
           "1700000000000" (mkState [] 1 []) "1700000001000" (mkState [] 2 []));
    vm_compute; reflexivity.
Defined.

Lemma send_discord_message_sent webhook_url embed w s :
  webhook_url <> "" ->
  sent (snd (send_discord_message webhook_url "" (Some embed) w s))
  = (sent s ++ [discord_post webhook_url embed])%list.
Proof.
  intros H. unfold send_discord_message.
  destruct (String.eqb webhook_url "") eqn:E.
  { apply String.eqb_eq in E. contradiction. }
  unfold try_except, bind, requests_post_json, send. simpl.
  fold (discord_post webhook_url embed).
  destruct (net w _ _) as [resp | cls msg]; simpl.
  - destruct (300 <=? status_code resp)%Z; reflexivity.
  - reflexivity.
Qed.

Lemma send_discord_message_log webhook_url text embed w s :
  exists records,
    log (snd (send_discord_message webhook_url text embed w s))
    = (log s ++ records)%list.
Proof.
  unfold send_discord_message.
  destruct (String.eqb webhook_url ""); [eexists; reflexivity |].
  unfold try_except, bind, requests_post_json, send. simpl.
  destruct (net w _ _) as [resp | cls msg]; simpl.
  - destruct (300 <=? status_code resp)%Z; simpl.
    + eexists; reflexivity.
    + exists []. rewrite app_nil_r. reflexivity.
  - eexists; reflexivity.
Qed.

(** C9. Sending a notification returns normally in every environment: when
    the transport raises and when the webhook answers with an error status
    alike, nothing propagates to the caller.  With an empty webhook URL no
    request is made. *)
Theorem send_discord_message_never_fails :
  (forall webhook_url text embed w s,
     fst (send_discord_message webhook_url text embed w s) = Ok tt)
  /\ (forall text embed w s,
        sent (snd (send_discord_message "" text embed w s)) = sent s)
  /\ (forall webhook_url text embed w s,
        let run := send_discord_message webhook_url text embed w s in
        match net w (List.length (sent s))
                (mkRequest POST webhook_url []
                   (JsonData (mkPayload
                      (if String.eqb text "" then None else Some text)
                      (match embed with Some e => Some [e] | None => None end))))
        with
        | Fails cls msg =>
            fst run = Ok tt
            /\ (webhook_url <> "" ->
                log (snd run) = (log s ++ [LogDiscordException (Exc cls msg)])%list)
        | Responds resp =>
            fst run = Ok tt
            /\ (webhook_url <> "" -> (300 <= status_code resp)%Z ->
                log (snd run) = (log s ++ [LogDiscordStatus (status_code resp)])%list)
        end).
Proof.
  assert (forall webhook_url text embed w s,
            fst (send_discord_message webhook_url text embed w s) = Ok tt) as H.
  { intros. rewrite send_discord_message_run. reflexivity. }
  split; [exact H |]. split; [reflexivity |].
  intros webhook_url text embed w s run.
  destruct (net w _ _) as [resp | cls msg] eqn:E; (split; [apply H |]).
  - intros Hw Hs. subst run. unfold send_discord_message.
    destruct (String.eqb webhook_url "") eqn:E0.
    { apply String.eqb_eq in E0. contradiction. }
    unfold try_except, bind, requests_post_json, send. rewrite E. simpl.
    apply Z.leb_le in Hs. rewrite Hs. reflexivity.
  - intros Hw. subst run. unfold send_discord_message.
    destruct (String.eqb webhook_url "") eqn:E0.
    { apply String.eqb_eq in E0. contradiction. }
    unfold try_except, bind, requests_post_json, send. rewrite E. reflexivity.
Qed.

Lemma send_discord_message_never_fails_witness :
  let w := mkWorld (fun _ _ => Fails "ConnectionError" "Connection refused")
             Scenario.seconds in
  let run := send_discord_message Scenario.webhook "" (Some CompletionEmbed) w initial in
  fst run = Ok tt
  /\ (Scenario.webhook <> "" ->
      log (snd run)
      = [LogDiscordException (Exc "ConnectionError" "Connection refused")]).
Proof.
  exact (proj2 (proj2 send_discord_message_never_fails) Scenario.webhook ""
           (Some CompletionEmbed)
           (mkWorld (fun _ _ => Fails "ConnectionError" "Connection refused")
              Scenario.seconds)
           initial).
Defined.

Section Claims.

Context {RT : Runtime}.

Lemma available_eur_get m :
  available_eur (JObj m)
  = match assoc "ZEUR" m with
    | Some v => float v
    | None => match assoc "EUR" m with
              | Some v => float v
              | None => Ok 0%Q
              end
    end.
Proof.
  unfold available_eur, dict_get, obind.
  destruct (assoc "ZEUR" m); [reflexivity |].
  destruct (assoc "EUR" m); reflexivity.
Qed.

(** C3. The balance check computes [required] as the sum of the strategies'
    amounts.  Once the balance response gives [available], it returns exactly
    when [required <= available + 1e-8]; otherwise it raises [SystemExit]
    after logging and notifying (required, available).  A run in which the
    check raises ends there, before any strategy is processed. *)
Theorem ensure_sufficient_funds_gate api_key api_secret strategies webhook
    base_url w s bal_resp s1 error balances available :
  get_balance api_key api_secret base_url w s = (Ok bal_resp, s1) ->
  dict_get bal_resp "error" JNull = Ok error ->
  truthy error = false ->
  dict_get bal_resp "result" (JObj []) = Ok balances ->
  available_eur balances = Ok available ->
  let required := total_required strategies in
  let run :=
    ensure_sufficient_funds api_key api_secret strategies webhook base_url w s in
  (required == sum_amounts strategies)%Q
  /\ (fst run = Ok tt <-> (required <= available + 1e-8)%Q)
  /\ ((available + 1e-8 < required)%Q ->
      fst run = Raise (SystemExit "Insufficient EUR balance. Trades cancelled.")
      /\ In (LogInsufficient required available) (log (snd run))
      /\ (webhook <> "" ->
          In (discord_post webhook (InsufficientFundsEmbed required available))
             (sent (snd run))))
  /\ (forall cfg w' e s',
        ensure_sufficient_funds (cfg_api_key cfg) (cfg_api_secret cfg)
          (cfg_strategies cfg) (cfg_discord_webhook cfg) (cfg_base_url cfg)
          w' (at_gate cfg) = (Raise e, s') ->
        main cfg w' initial = (Raise e, s')).
Proof.
  intros Hb He Ht Hr Ha required run.
  pose proof (ensure_sufficient_funds_run api_key api_secret strategies webhook
                base_url w s bal_resp s1 error balances available
                Hb He Ht Hr Ha) as Hrun.
  cbv zeta in Hrun. fold required in Hrun. fold run in Hrun.
  split; [apply total_required_sum |].
  split; [| split].
  - destruct (Qltb (available + 1e-8)%Q required) eqn:E; rewrite Hrun; simpl.
    + apply Qltb_lt in E. split; [discriminate |].
      intros L. exfalso. apply (Qlt_irrefl required).
      apply Qle_lt_trans with (available + 1e-8)%Q; assumption.
    + apply Qltb_ge in E. split; auto.
  - intros L. apply Qltb_lt in L. rewrite L in Hrun. rewrite Hrun. simpl.
    split; [reflexivity |]. split.
    + destruct (send_discord_message_log webhook ""
                  (Some (create_insufficient_funds_embed required available)) w
                  (with_log s1 [LogBalanceCheck required available;
                                LogInsufficient required available]))
        as [records Hl].
      rewrite Hl. simpl. apply in_or_app. left. apply in_or_app. right.
      simpl. auto.
    + intros Hw. unfold create_insufficient_funds_embed.
      rewrite send_discord_message_sent by assumption.
      apply in_or_app. right. simpl. auto.
  - intros cfg w' e s'. apply main_stops_at_gate.
Qed.

(** C8. The available amount is read from the key ZEUR when the balances
    have it, otherwise from the key EUR when they have it, and otherwise it
    is 0.  With neither key, a run that requires more than 1e-8 therefore
    ends with the insufficient-funds exit. *)
Theorem available_eur_aliases m :
  available_eur (JObj m)
  = match assoc "ZEUR" m with
    | Some v => float v
    | None => match assoc "EUR" m with
              | Some v => float v
              | None => Ok 0%Q
              end
    end
  /\ (assoc "ZEUR" m = None -> assoc "EUR" m = None ->
      available_eur (JObj m) = Ok 0%Q
      /\ forall api_key api_secret strategies webhook base_url w s bal_resp s1 error,
           get_balance api_key api_secret base_url w s = (Ok bal_resp, s1) ->
           dict_get bal_resp "error" JNull = Ok error ->
           truthy error = false ->
           dict_get bal_resp "result" (JObj []) = Ok (JObj m) ->
           (0 + 1e-8 < total_required strategies)%Q ->
           fst (ensure_sufficient_funds api_key api_secret strategies webhook
                  base_url w s)
           = Raise (SystemExit "Insufficient EUR balance. Trades cancelled.")).
Proof.
  split; [apply available_eur_get |].
  intros Hz He.
  assert (available_eur (JObj m) = Ok 0%Q) as Ha.
  { rewrite available_eur_get, Hz, He. reflexivity. }
  split; [exact Ha |].
  intros api_key api_secret strategies webhook base_url w s bal_resp s1 error
    Hb Herr Ht Hr L.
  rewrite (ensure_sufficient_funds_run api_key api_secret strategies webhook
             base_url w s bal_resp s1 error (JObj m) 0%Q Hb Herr Ht Hr Ha).
  apply Qltb_lt in L. rewrite L. reflexivity.
Qed.

End Claims.


(** *** The order of the requests of a run *)

Lemma starts_with_bind {A B} (P Q : Request -> Prop) (c : M A) (k : A -> M B) :
  starts_with P Q c -> (forall a, emits Q (k a)) -> starts_with P Q (bind c k).
Proof.
  intros Hc Hk w s. unfold bind.
  destruct (Hc w s) as [[E [e He]] | [first [more [E [HP HQ]]]]];
    destruct (c w s) as [[a | e'] s1]; simpl in *.
  - discriminate.
  - left. split; [assumption | eauto].
  - right. destruct (Hk a w s1) as [new [E2 F2]].
    exists first, (more ++ new)%list. rewrite E2, E.
    rewrite <- app_assoc. simpl. repeat split; auto.
    apply Forall_app; auto.
  - right. exists first, more. auto.
Qed.

Section Order.

Context {RT : Runtime}.

Lemma starts_with_get_balance api_key api_secret base_url Q :
  starts_with (fun r => is_balance base_url r = true) Q
    (get_balance api_key api_secret base_url).
Proof.
  intros w s. unfold get_balance, bind. rewrite get_nonce_run.
  unfold lift at 1.
  destruct (get_signature _ _ _ _) as [sig | e]; simpl.
  - right. unfold requests_post, send. simpl.
    eexists; exists [].
    destruct (net w _ _) as [resp | cls msg]; simpl.
    + split; [| split; [| constructor]].
      * unfold response_json. destruct (json_body resp); reflexivity.
      * unfold is_balance. simpl. apply String.eqb_refl.
    + split; [reflexivity | split; [| constructor]].
      unfold is_balance. simpl. apply String.eqb_refl.
  - left. split; [reflexivity | eauto].
Qed.

(** The balance check sends the balance request first, then at most
    notifications. *)
Lemma starts_with_ensure_sufficient_funds api_key api_secret strategies webhook base_url :
  starts_with (fun r => is_balance base_url r = true)
    (fun r => is_form r = false)
    (ensure_sufficient_funds api_key api_secret strategies webhook base_url).
Proof.
  unfold ensure_sufficient_funds.
  apply starts_with_bind; [apply starts_with_get_balance |].
  intros bal_resp. emits_walk;
    apply emits_send_discord_message; intros; reflexivity.
Qed.

(** What follows the balance check in a run sends no balance request. *)
Lemma emits_after_gate cfg :
  emits (fun r => is_balance (cfg_base_url cfg) r = false)
    (send_discord_message (cfg_discord_webhook cfg) ""
       (Some (create_start_embed (List.length (cfg_strategies cfg)))) ;;
     check_kraken_status (cfg_base_url cfg) ;;
     execute_strategies (cfg_api_key cfg) (cfg_api_secret cfg)
       (cfg_strategies cfg) (cfg_discord_webhook cfg) (cfg_base_url cfg)
       (cfg_dry_run cfg) ;;
     send_discord_message (cfg_discord_webhook cfg) ""
       (Some create_completion_embed) ;;
     logger LogCompleted).
Proof.
  apply emits_bind; [apply emits_send_discord_message; reflexivity | intros _].
  apply emits_bind; [apply emits_check_kraken_status; reflexivity | intros _].
  apply emits_bind; [apply emits_strategies_loop | intros _].
  apply emits_bind; [apply emits_send_discord_message; reflexivity | intros _].
  apply emits_logger.
Qed.

Lemma main_run cfg w :
  main cfg w initial
  = bind
      (ensure_sufficient_funds (cfg_api_key cfg) (cfg_api_secret cfg)
         (cfg_strategies cfg) (cfg_discord_webhook cfg) (cfg_base_url cfg))
      (fun _ =>
         send_discord_message (cfg_discord_webhook cfg) ""
           (Some (create_start_embed (List.length (cfg_strategies cfg)))) ;;
         check_kraken_status (cfg_base_url cfg) ;;
         execute_strategies (cfg_api_key cfg) (cfg_api_secret cfg)
           (cfg_strategies cfg) (cfg_discord_webhook cfg) (cfg_base_url cfg)
           (cfg_dry_run cfg) ;;
         send_discord_message (cfg_discord_webhook cfg) ""
           (Some create_completion_embed) ;;
         logger LogCompleted)
      w (at_gate cfg).
Proof. reflexivity. Qed.

(** The requests of a whole run: none, or the balance request followed by
    requests that are not balance requests. *)
Lemma main_trace cfg w :
  sent (snd (main cfg w initial)) = []
  \/ exists first rest,
       sent (snd (main cfg w initial)) = first :: rest
       /\ is_balance (cfg_base_url cfg) first = true
       /\ Forall (fun r => is_balance (cfg_base_url cfg) r = false) rest.
Proof.
  rewrite main_run.
  assert (starts_with (fun r => is_balance (cfg_base_url cfg) r = true)
            (fun r => is_balance (cfg_base_url cfg) r = false)
            (bind
               (ensure_sufficient_funds (cfg_api_key cfg) (cfg_api_secret cfg)
                  (cfg_strategies cfg) (cfg_discord_webhook cfg) (cfg_base_url cfg))
               (fun _ =>
                  send_discord_message (cfg_discord_webhook cfg) ""
                    (Some (create_start_embed (List.length (cfg_strategies cfg)))) ;;
                  check_kraken_status (cfg_base_url cfg) ;;
                  execute_strategies (cfg_api_key cfg) (cfg_api_secret cfg)
                    (cfg_strategies cfg) (cfg_discord_webhook cfg) (cfg_base_url cfg)
                    (cfg_dry_run cfg) ;;
                  send_discord_message (cfg_discord_webhook cfg) ""
                    (Some create_completion_embed) ;;
                  logger LogCompleted))) as H'.
  { apply starts_with_bind; [| intros _; apply emits_after_gate].
    intros w0 s0.
    destruct (starts_with_ensure_sufficient_funds (cfg_api_key cfg)
                (cfg_api_secret cfg) (cfg_strategies cfg)
                (cfg_discord_webhook cfg) (cfg_base_url cfg) w0 s0)
      as [L | [first [more [E [HP HQ]]]]]; [left; exact L | right].
    exists first, more. repeat split; auto.
    eapply Forall_impl; [| exact HQ].
    intros r. apply not_form_not_balance. }
  destruct (H' w (at_gate cfg)) as [[E _] | [first [more [E [HP HQ]]]]].
  - left. rewrite E. reflexivity.
  - right. exists first, more. rewrite E. auto.
Qed.

(** An order request in the run means the balance check had returned. *)
Lemma main_orders_after_gate cfg w :
  Exists (fun r => is_add_order (cfg_base_url cfg) r = true)
    (sent (snd (main cfg w initial))) ->
  fst (ensure_sufficient_funds (cfg_api_key cfg) (cfg_api_secret cfg)
         (cfg_strategies cfg) (cfg_discord_webhook cfg) (cfg_base_url cfg)
         w (at_gate cfg)) = Ok tt.
Proof.
  intros H.
  destruct (ensure_sufficient_funds (cfg_api_key cfg) (cfg_api_secret cfg)
              (cfg_strategies cfg) (cfg_discord_webhook cfg) (cfg_base_url cfg)
              w (at_gate cfg)) as [[[] | e] s1] eqn:E; [reflexivity |].
  exfalso.
  rewrite (main_stops_at_gate cfg w e s1 E) in H. simpl in H.
  destruct (emits_ensure_sufficient_funds (cfg_api_key cfg) (cfg_api_secret cfg)
              (cfg_strategies cfg) (cfg_discord_webhook cfg) (cfg_base_url cfg)
              w (at_gate cfg)) as [new [En Fn]].
  rewrite E in En. simpl in En. rewrite En in H.
  apply Exists_exists in H as [r [Hin Hr]].
  rewrite Forall_forall in Fn. rewrite (Fn r Hin) in Hr. discriminate.
Qed.

(** C4. In every run the balance request is the first request sent and the
    only balance request, so the check precedes every order and is not
    repeated per order; an order request is sent only after the check has
    returned; and when the required total exceeds the fetched balance by
    more than 1e-8 the run ends with the insufficient-funds exit without any
    order request. *)
Theorem main_checks_balance_before_orders cfg w :
  let base_url := cfg_base_url cfg in
  let run := main cfg w initial in
  let gate :=
    ensure_sufficient_funds (cfg_api_key cfg) (cfg_api_secret cfg)
      (cfg_strategies cfg) (cfg_discord_webhook cfg) base_url w (at_gate cfg) in
  (sent (snd run) = []
   \/ exists first rest,
        sent (snd run) = first :: rest
        /\ is_balance base_url first = true
        /\ is_add_order base_url first = false
        /\ Forall (fun r => is_balance base_url r = false) rest)
  /\ (Exists (fun r => is_add_order base_url r = true) (sent (snd run)) ->
      fst gate = Ok tt)
  /\ (forall bal_resp s1 error balances available,
        get_balance (cfg_api_key cfg) (cfg_api_secret cfg) base_url w (at_gate cfg)
        = (Ok bal_resp, s1) ->
        dict_get bal_resp "error" JNull = Ok error ->
        truthy error = false ->
        dict_get bal_resp "result" (JObj []) = Ok balances ->
        available_eur balances = Ok available ->
        (available + 1e-8 < total_required (cfg_strategies cfg))%Q ->
        fst run = Raise (SystemExit "Insufficient EUR balance. Trades cancelled.")
        /\ Forall (fun r => is_add_order base_url r = false) (sent (snd run))).
Proof.
  intros base_url run gate. split; [| split].
  - destruct (main_trace cfg w) as [E | [first [rest [E [H1 H2]]]]];
      [left; exact E | right].
    exists first, rest. repeat split; auto.
    apply balance_is_not_add_order. assumption.
  - apply main_orders_after_gate.
  - intros bal_resp s1 error balances available Hb He Ht Hr Ha L.
    pose proof (ensure_sufficient_funds_run (cfg_api_key cfg) (cfg_api_secret cfg)
                  (cfg_strategies cfg) (cfg_discord_webhook cfg) base_url
                  w (at_gate cfg) bal_resp s1 error balances available
                  Hb He Ht Hr Ha) as Hrun.
    cbv zeta in Hrun. apply Qltb_lt in L. rewrite L in Hrun.
    pose proof (main_stops_at_gate cfg w _ _ Hrun) as Hmain.
    subst run. rewrite Hmain. simpl. split; [reflexivity |].
    destruct (emits_ensure_sufficient_funds (cfg_api_key cfg) (cfg_api_secret cfg)
                (cfg_strategies cfg) (cfg_discord_webhook cfg) base_url
                w (at_gate cfg)) as [new [En Fn]].
    fold base_url in Hrun. rewrite Hrun in En. simpl in En. rewrite En.
    simpl. exact Fn.
Qed.

End Order.

(** *** The strategy loop *)

Section Loop.

Context {RT : Runtime}.

Lemma eur_to_volume_run pair amount base_url w s price s' :
  get_ask_price pair base_url w s = (Ok price, s') ->
  Qeq_bool price 0 = false ->
  eur_to_volume pair amount base_url w s = (Ok (round (amount / price) 8), s').
Proof.
  intros H Hz. unfold eur_to_volume.
  rewrite (bind_ok _ _ _ _ _ _ H). rewrite Hz. reflexivity.
Qed.

(** A dry run of the [try] block, once both of its pricing steps returned. *)
Lemma strategy_body_dry_run api_key api_secret webhook base_url strat results
    w s price s1 volume s2 :
  get_ask_price (pair strat) base_url w
    (with_log s [LogProcessing (pair strat) (amount_eur strat)]) = (Ok price, s1) ->
  eur_to_volume (pair strat) (amount_eur strat) base_url w s1 = (Ok volume, s2) ->
  strategy_body api_key api_secret webhook base_url true strat results w s
  = (Ok (results ++ [DryRunResult (pair strat) (amount_eur strat) price volume])%list,
     snd (send_discord_message webhook ""
            (Some (DryRunEmbed (pair strat) (amount_eur strat) price volume)) w
            (with_log s2 [LogVolume volume price (pair strat);
                          LogDryRun (pair strat) (amount_eur strat) price volume]))).
Proof.
  intros Hp Hv. unfold strategy_body.
  unfold bind at 1. rewrite logger_run.
  rewrite (bind_ok _ _ _ _ _ _ Hp).
  rewrite (bind_ok _ _ _ _ _ _ Hv).
  unfold bind at 1. rewrite logger_run.
  unfold bind at 1. rewrite logger_run, with_log_app. simpl app.
  unfold bind at 1. unfold create_dry_run_embed.
  rewrite send_discord_message_run. reflexivity.
Qed.

(** When the [try] block raises, the iteration returns the results as they
    were, after logging and notifying the exception. *)
Lemma process_strategy_caught api_key api_secret webhook base_url dry_run strat
    results w s e s1 :
  strategy_body api_key api_secret webhook base_url dry_run strat results w s
  = (Raise e, s1) ->
  process_strategy api_key api_secret webhook base_url dry_run strat results w s
  = (Ok results,
     snd (send_discord_message webhook ""
            (Some (create_exception_embed (pair strat) (StrOfException e))) w
            (with_log s1 [LogStrategyException (pair strat) e]))).
Proof.
  intros H. unfold process_strategy, try_except. rewrite H.
  rewrite (roe_strategy_body _ _ _ _ _ _ _ _ _ _ _ H).
  apply strategy_handler_run.
Qed.

(** C5, amended.  When the [try] block of an iteration raises, the exception
    is an [Exception]; it is caught in that iteration, logged and notified,
    the result list is left as it was (nothing is appended for the failed
    strategy), and the loop goes on with the remaining strategies, so the
    run of the loop returns. *)
Theorem strategy_exception_is_isolated api_key api_secret webhook base_url
    dry_run strat rest results w s e s1 :
  strategy_body api_key api_secret webhook base_url dry_run strat results w s
  = (Raise e, s1) ->
  let s2 :=
    snd (send_discord_message webhook ""
           (Some (ExceptionEmbed (pair strat) (StrOfException e))) w
           (with_log s1 [LogStrategyException (pair strat) e])) in
  is_Exception e = true
  /\ process_strategy api_key api_secret webhook base_url dry_run strat results w s
     = (Ok results, s2)
  /\ strategies_loop api_key api_secret webhook base_url dry_run (strat :: rest)
       results w s
     = strategies_loop api_key api_secret webhook base_url dry_run rest results w s2
  /\ exists final,
       fst (strategies_loop api_key api_secret webhook base_url dry_run
              (strat :: rest) results w s) = Ok final.
Proof.
  intros H s2.
  pose proof (process_strategy_caught _ _ _ _ _ _ _ _ _ _ _ H) as Hp.
  fold s2 in Hp. unfold create_exception_embed in Hp. fold s2 in Hp.
  split; [eapply roe_strategy_body; eassumption |].
  split; [exact Hp |].
  split.
  - simpl. apply bind_ok. exact Hp.
  - apply strategies_loop_returns.
Qed.

(** An iteration of a dry run whose pricing returned appends the simulated
    result of its strategy. *)
Lemma process_strategy_dry_run api_key api_secret webhook base_url strat results
    w s price s1 volume s2 :
  get_ask_price (pair strat) base_url w
    (with_log s [LogProcessing (pair strat) (amount_eur strat)]) = (Ok price, s1) ->
  eur_to_volume (pair strat) (amount_eur strat) base_url w s1 = (Ok volume, s2) ->
  process_strategy api_key api_secret webhook base_url true strat results w s
  = (Ok (results ++ [DryRunResult (pair strat) (amount_eur strat) price volume])%list,
     after_dry_run webhook strat price volume w s2).
Proof.
  intros Hp Hv. unfold process_strategy, after_dry_run.
  apply try_except_ok. apply strategy_body_dry_run with (s1 := s1); assumption.
Qed.

(** The [try] block of a dry run raises what its pricing raises. *)
Lemma strategy_body_pricing_raises api_key api_secret webhook base_url strat results
    w s e s1 :
  (get_ask_price (pair strat) base_url w
     (with_log s [LogProcessing (pair strat) (amount_eur strat)]) = (Raise e, s1)
   \/ exists price s0,
        get_ask_price (pair strat) base_url w
          (with_log s [LogProcessing (pair strat) (amount_eur strat)]) = (Ok price, s0)
        /\ eur_to_volume (pair strat) (amount_eur strat) base_url w s0 = (Raise e, s1)) ->
  strategy_body api_key api_secret webhook base_url true strat results w s
  = (Raise e, s1).
Proof.
  intros [Hp | [price [s0 [Hp Hv]]]];
    unfold strategy_body; unfold bind at 1; rewrite logger_run.
  - apply bind_raise. exact Hp.
  - rewrite (bind_ok _ _ _ _ _ _ Hp). apply bind_raise. exact Hv.
Qed.

(** When the pricing of every strategy returns, the dry run returns the
    simulated results of all of them, in their order, after the results it
    started with. *)
Lemma strategies_loop_all_priced api_key api_secret webhook base_url w
    strategies s quotes s_end :
  all_priced webhook base_url w strategies s quotes s_end ->
  forall results,
    strategies_loop api_key api_secret webhook base_url true strategies results w s
    = (Ok (results ++ map simulated (combine strategies quotes))%list, s_end).
Proof.
  induction 1 as [s | strat rest s price s1 volume s2 quotes s_end Hp Hv _ IH];
    intros results.
  - simpl. rewrite app_nil_r. reflexivity.
  - simpl strategies_loop.
    rewrite (bind_ok _ _ _ _ _ _
               (process_strategy_dry_run api_key api_secret webhook base_url
                  strat results w s price s1 volume s2 Hp Hv)).
    rewrite IH. simpl. rewrite <- app_assoc. reflexivity.
Qed.

Lemma all_priced_length webhook base_url w strategies s quotes s_end :
  all_priced webhook base_url w strategies s quotes s_end ->
  List.length quotes = List.length strategies.
Proof.
  induction 1; simpl; congruence.
Qed.

(** C6, amended.  In a dry run the strategy loop sends no order request (it
    sends no form request at all).  An iteration whose ticker request returned
    [price] and whose volume computation returned [volume] appends exactly the
    simulated result that carries the pair, the amount, [price] and [volume],
    and the loop goes on from there; an iteration whose pricing raises appends
    nothing, and the loop goes on with the results as they were.  So a run in
    which the pricing of every strategy returns returns one simulated result
    for each strategy, in their order; a strategy whose pricing raises has
    none. *)
Theorem dry_run_places_no_order api_key api_secret strategies webhook base_url w s :
  let loop := strategies_loop api_key api_secret webhook base_url true in
  let run :=
    execute_strategies api_key api_secret strategies webhook base_url true w s in
  (exists new,
     sent (snd run) = (sent s ++ new)%list
     /\ Forall (fun r => is_form r = false) new
     /\ Forall (fun r => is_add_order base_url r = false) new)
  /\ (forall strat rest results s0 price s1 volume s2,
        get_ask_price (pair strat) base_url w
          (with_log s0 [LogProcessing (pair strat) (amount_eur strat)])
        = (Ok price, s1) ->
        eur_to_volume (pair strat) (amount_eur strat) base_url w s1
        = (Ok volume, s2) ->
        loop (strat :: rest) results w s0
        = loop rest
            (results ++ [DryRunResult (pair strat) (amount_eur strat) price volume])%list
            w (after_dry_run webhook strat price volume w s2))
  /\ (forall strat rest results s0 e s1,
        (get_ask_price (pair strat) base_url w
           (with_log s0 [LogProcessing (pair strat) (amount_eur strat)])
         = (Raise e, s1)
         \/ exists price s',
              get_ask_price (pair strat) base_url w
                (with_log s0 [LogProcessing (pair strat) (amount_eur strat)])
              = (Ok price, s')
              /\ eur_to_volume (pair strat) (amount_eur strat) base_url w s'
                 = (Raise e, s1)) ->
        loop (strat :: rest) results w s0
        = loop rest results w (after_exception webhook strat e w s1))
  /\ (forall quotes s_end,
        all_priced webhook base_url w strategies s quotes s_end ->
        List.length quotes = List.length strategies
        /\ run = (Ok (map simulated (combine strategies quotes)), s_end)).
Proof.
  intros loop run. split; [| split; [| split]].
  - destruct (emits_strategies_loop_dry_run api_key api_secret webhook base_url
                strategies [] w s) as [new [E F]].
    exists new. repeat split; auto.
    eapply Forall_impl; [| exact F]. intros r. apply not_form_not_add_order.
  - intros strat rest results s0 price s1 volume s2 Hp Hv.
    unfold loop. simpl strategies_loop.
    apply bind_ok. eapply process_strategy_dry_run; eassumption.
  - intros strat rest results s0 e s1 H.
    unfold loop. simpl strategies_loop.
    apply bind_ok. unfold after_exception.
    apply (process_strategy_caught api_key api_secret webhook base_url true
             strat results w s0 e s1).
    apply strategy_body_pricing_raises. exact H.
  - intros quotes s_end H. split.
    + eapply all_priced_length. exact H.
    + apply (strategies_loop_all_priced api_key api_secret webhook base_url w
               strategies s quotes s_end H []).
Qed.

End Loop.

(** C10. The price an iteration reports and the price its volume is computed
    from come from two successive ticker requests: when the first returns
    [p1] and the second a non-zero [p2], the dry-run result and notification
    carry [p1] with the volume [round (amount / p2) 8].  There is an
    environment in which the two differ, and the volume reported is not the
    one the reported price gives. *)
Theorem reported_price_and_volume_use_two_fetches :
  (forall (RT : Runtime) api_key api_secret webhook base_url strat results
          w s p1 s1 p2 s2,
     get_ask_price (pair strat) base_url w
       (with_log s [LogProcessing (pair strat) (amount_eur strat)]) = (Ok p1, s1) ->
     get_ask_price (pair strat) base_url w s1 = (Ok p2, s2) ->
     Qeq_bool p2 0 = false ->
     let volume := round (amount_eur strat / p2) 8 in
     strategy_body api_key api_secret webhook base_url true strat results w s
     = (Ok (results ++ [DryRunResult (pair strat) (amount_eur strat) p1 volume])%list,
        snd (send_discord_message webhook ""
               (Some (DryRunEmbed (pair strat) (amount_eur strat) p1 volume)) w
               (with_log s2 [LogVolume volume p1 (pair strat);
                             LogDryRun (pair strat) (amount_eur strat) p1 volume]))))
  /\ exists w p1 p2,
       ~ (p1 == p2)%Q
       /\ fst (@strategy_body reference_runtime Scenario.api_key Scenario.api_secret
                 "" Scenario.base true Scenario.btc [] w initial)
          = Ok [DryRunResult "XXBTZEUR" 100 p1 (round (100 / p2) 8)]
       /\ ~ (round (100 / p2) 8 == round (100 / p1) 8)%Q.
Proof.
  split.
  - intros RT api_key api_secret webhook base_url strat results w s p1 s1 p2 s2
      H1 H2 Hz volume.
    eapply strategy_body_dry_run; [exact H1 |].
    apply eur_to_volume_run; assumption.
  - exists Scenario.volatile, 50000.0%Q, 40000.0%Q.
    split; [vm_compute; discriminate |].
    split; [vm_compute; reflexivity |].
    vm_compute; discriminate.
Qed.

(** *** The signed string and the body sent *)

Lemma quote_plus_safe s : all_safe s = true -> Requests.quote_plus s = s.
Proof.
  induction s as [| c s IH]; simpl; [reflexivity |].
  intros H. apply andb_true_iff in H as [Hc Hs].
  rewrite Hc, IH by assumption. reflexivity.
Qed.

Section Body.

Context {RT : Runtime}.

(** X12. On fields whose keys and values need no escaping, the body [requests]
    sends is the string the program signs. *)
Lemma encode_params_safe fields :
  forallb (fun kv => all_safe (fst kv) && all_safe (format (snd kv))) fields = true ->
  Requests.encode_params fields = encode_post_data fields.
Proof.
  intros H. unfold Requests.encode_params, Requests.urlencode, encode_post_data.
  rewrite map_map. f_equal.
  induction fields as [| [k v] rest IH]; simpl in *; [reflexivity |].
  apply andb_true_iff in H as [Hkv Hrest].
  apply andb_true_iff in Hkv as [Hk Hv].
  rewrite !quote_plus_safe by assumption. rewrite IH by assumption. reflexivity.
Qed.

(** X11. The request of an order: its form fields are the five declared fields
    in their order, and its signature is taken over their [key=value] pairs
    joined by [&]. *)
Lemma pass_market_order_request api_key api_secret pair volume base_url w s api_sign :
  let nonce := str_int (int (clock w (reads s) * 1000)) in
  get_signature api_secret (encode_post_data (order_fields nonce volume pair))
    nonce "/0/private/AddOrder" = Ok api_sign ->
  encode_post_data (order_fields nonce volume pair)
  = "nonce=" ++ nonce ++ "&ordertype=market&type=buy&volume="
    ++ str_float volume ++ "&pair=" ++ pair
  /\ sent (snd (pass_market_order api_key api_secret pair volume base_url w s))
     = (sent s
        ++ [mkRequest POST (base_url ++ "/0/private/AddOrder")
              [("API-Key", api_key); ("API-Sign", api_sign)]
              (FormData (order_fields nonce volume pair))])%list.
Proof.
  intros nonce H. split.
  - unfold encode_post_data, order_fields, join. simpl.
    repeat (rewrite <- ?append_assoc; simpl). reflexivity.
  - unfold pass_market_order, bind. rewrite get_nonce_run. fold nonce.
    unfold lift at 1. fold (order_fields nonce volume pair). rewrite H.
    unfold requests_post, send. simpl.
    destruct (net w _ _) as [resp | cls msg]; simpl; [| reflexivity].
    unfold response_json. destruct (json_body resp); reflexivity.
Qed.

End Body.

(** C2 at a pair that needs escaping: the order request for [BTC/EUR] is
    signed over a string that ends in [pair=BTC/EUR], while the body that
    goes on the wire ends in [pair=BTC%2FEUR]. *)
Theorem pass_market_order_signs_unescaped_string :
  let run :=
    @pass_market_order reference_runtime Scenario.api_key Scenario.api_secret
      "BTC/EUR" 0.002 Scenario.base Scenario.rich initial in
  exists r api_sign,
    sent (snd run) = [r]
    /\ body r = FormData (order_fields "1700000000000" 0.002 "BTC/EUR")
    /\ header "API-Sign" r = Some api_sign
    /\ @get_signature reference_runtime Scenario.api_secret
         "nonce=1700000000000&ordertype=market&type=buy&volume=0.002&pair=BTC/EUR"
         "1700000000000" "/0/private/AddOrder" = Ok api_sign
    /\ @wire_body reference_runtime r
       = Some "nonce=1700000000000&ordertype=market&type=buy&volume=0.002&pair=BTC%2FEUR".
Proof.
  intros run. subst run.
  eexists; eexists.
  split; [vm_compute; reflexivity |].
  split; [vm_compute; reflexivity |].
  split; [vm_compute; reflexivity |].
  split; vm_compute; reflexivity.
Qed.

(** ** Further properties of the program *)

Section Further.

Context {RT : Runtime}.

(** X1. The status check returns exactly when the response is a dict whose
    [result] is a dict with [status] equal to ["online"]; a response
    without [result] counts as status ["Unknown"] and raises. *)
Theorem check_kraken_status_online_only base_url w s resp s1 m :
  requests_get (base_url ++ "/0/public/SystemStatus") w s = (Ok resp, s1) ->
  json_body resp = Some (JObj m) ->
  (fst (check_kraken_status base_url w s) = Ok tt
   <-> exists r, assoc "result" m = Some (JObj r)
                 /\ assoc "status" r = Some (JStr "online"))
  /\ (assoc "result" m = None ->
      check_kraken_status base_url w s
      = (Raise (Exc "Exception" "API is not online. Aborting."),
         with_log s1 [LogSystemStatus (JStr "Unknown")])).
Proof.
  intros Hg Hj.
  assert (forall k : json -> M unit,
            bind (requests_get (base_url ++ "/0/public/SystemStatus"))
              (fun response => bind (response_json response) k) w s
            = k (JObj m) w s1) as Hstart.
  { intros k. rewrite (bind_ok _ _ _ _ _ _ Hg).
    unfold bind, response_json. rewrite Hj. reflexivity. }
  unfold check_kraken_status. rewrite Hstart. clear Hstart.
  unfold bind, lift, dict_get. split.
  - destruct (assoc "result" m) as [[| | | | | r] |] eqn:Er; simpl;
      try (split; [discriminate | intros [r' [H _]]; discriminate]).
    + destruct (assoc "status" r) as [v |] eqn:Es; simpl.
      * destruct (eq_str v "online") eqn:Eo; simpl.
        -- split; [intros _ | reflexivity].
           exists r. split; [reflexivity |].
           destruct v; try discriminate. simpl in Eo.
           apply String.eqb_eq in Eo. subst. assumption.
        -- split; [discriminate |].
           intros [r' [H1 H2]]. inversion H1; subst r'.
           rewrite Es in H2. inversion H2; subst v. discriminate.
      * split; [discriminate |].
        intros [r' [H1 H2]]. inversion H1; subst r'. congruence.
  - intros Er. rewrite Er. reflexivity.
Qed.

(** X2. When the status check raises, the run ends there: after the balance
    check and the start notification, with no order request sent. *)
Theorem main_stops_when_not_online cfg w s1 e s3 :
  ensure_sufficient_funds (cfg_api_key cfg) (cfg_api_secret cfg)
    (cfg_strategies cfg) (cfg_discord_webhook cfg) (cfg_base_url cfg)
    w (at_gate cfg) = (Ok tt, s1) ->
  check_kraken_status (cfg_base_url cfg) w
    (snd (send_discord_message (cfg_discord_webhook cfg) ""
            (Some (StartEmbed (List.length (cfg_strategies cfg)))) w s1))
  = (Raise e, s3) ->
  main cfg w initial = (Raise e, s3)
  /\ Forall (fun r => is_add_order (cfg_base_url cfg) r = false) (sent s3).
Proof.
  intros Hg Hc. split.
  - rewrite main_run. rewrite (bind_ok _ _ _ _ _ _ Hg).
    unfold bind at 1. unfold create_start_embed.
    rewrite send_discord_message_run.
    apply bind_raise. exact Hc.
  - destruct (emits_ensure_sufficient_funds (cfg_api_key cfg) (cfg_api_secret cfg)
                (cfg_strategies cfg) (cfg_discord_webhook cfg) (cfg_base_url cfg)
                w (at_gate cfg)) as [n1 [E1 F1]].
    rewrite Hg in E1. simpl in E1.
    destruct (emits_send_discord_message
                (fun r => is_add_order (cfg_base_url cfg) r = false)
                (cfg_discord_webhook cfg) ""
                (Some (StartEmbed (List.length (cfg_strategies cfg))))
                (fun _ => eq_refl) w s1) as [n2 [E2 F2]].
    destruct (emits_check_kraken_status
                (fun r => is_add_order (cfg_base_url cfg) r = false)
                (cfg_base_url cfg) (fun _ => eq_refl) w
                (snd (send_discord_message (cfg_discord_webhook cfg) ""
                        (Some (StartEmbed (List.length (cfg_strategies cfg)))) w s1)))
      as [n3 [E3 F3]].
    rewrite Hc in E3. simpl in E3. rewrite E3, E2, E1.
    repeat (apply Forall_app; split); assumption.
Qed.

(** X3. A pair that the ticker response does not list makes the price lookup
    raise [KeyError]; the iteration catches it, notifies, and leaves the
    results as they were, in either mode. *)
Theorem unlisted_pair_is_skipped api_key api_secret webhook base_url dry_run strat
    results w s resp s1 j m :
  requests_get (base_url ++ "/0/public/Ticker?pair=" ++ pair strat) w
    (with_log s [LogProcessing (pair strat) (amount_eur strat)]) = (Ok resp, s1) ->
  json_body resp = Some j ->
  getitem j "result" = Ok (JObj m) ->
  assoc (pair strat) m = None ->
  get_ask_price (pair strat) base_url w
    (with_log s [LogProcessing (pair strat) (amount_eur strat)])
  = (Raise (Exc "KeyError" (pair strat)), s1)
  /\ process_strategy api_key api_secret webhook base_url dry_run strat results w s
     = (Ok results,
        snd (send_discord_message webhook ""
               (Some (ExceptionEmbed (pair strat)
                        (StrOfException (Exc "KeyError" (pair strat))))) w
               (with_log s1 [LogStrategyException (pair strat)
                               (Exc "KeyError" (pair strat))]))).
Proof.
  intros Hg Hj Hr Hm.
  assert (get_ask_price (pair strat) base_url w
            (with_log s [LogProcessing (pair strat) (amount_eur strat)])
          = (Raise (Exc "KeyError" (pair strat)), s1)) as Hp.
  { unfold get_ask_price. rewrite (bind_ok _ _ _ _ _ _ Hg).
    unfold bind, response_json, lift. rewrite Hj. simpl. rewrite Hr.
    simpl. rewrite Hm. reflexivity. }
  split; [exact Hp |].
  apply process_strategy_caught.
  unfold strategy_body. unfold bind at 1. rewrite logger_run.
  apply bind_raise. exact Hp.
Qed.

(** X4. With a secret that is not base64 no signature can be made: the balance
    request and the order request raise before anything is sent, and a run
    ends without a single request. *)
Theorem undecodable_secret_sends_nothing api_secret :
  b64decode api_secret = None ->
  (forall api_key base_url w s,
     get_balance api_key api_secret base_url w s
     = (Raise (Exc "binascii.Error" "Incorrect padding"),
        mkState (sent s) (S (reads s)) (log s)))
  /\ (forall api_key pair volume base_url w s,
        pass_market_order api_key api_secret pair volume base_url w s
        = (Raise (Exc "binascii.Error" "Incorrect padding"),
           mkState (sent s) (S (reads s)) (log s)))
  /\ (forall cfg w,
        cfg_api_secret cfg = api_secret ->
        fst (main cfg w initial) = Raise (Exc "binascii.Error" "Incorrect padding")
        /\ sent (snd (main cfg w initial)) = []).
Proof.
  intros H.
  assert (forall data nonce path,
            get_signature api_secret data nonce path
            = Raise (Exc "binascii.Error" "Incorrect padding")) as Hs.
  { intros. unfold get_signature, sign. rewrite H. reflexivity. }
  assert (forall api_key base_url w s,
            get_balance api_key api_secret base_url w s
            = (Raise (Exc "binascii.Error" "Incorrect padding"),
               mkState (sent s) (S (reads s)) (log s))) as Hb.
  { intros. unfold get_balance, bind. rewrite get_nonce_run.
    unfold lift. rewrite Hs. reflexivity. }
  split; [exact Hb |]. split.
  - intros. unfold pass_market_order, bind. rewrite get_nonce_run.
    unfold lift. rewrite Hs. reflexivity.
  - intros cfg w Hc.
    assert (main cfg w initial
            = (Raise (Exc "binascii.Error" "Incorrect padding"),
               mkState (sent (at_gate cfg)) (S (reads (at_gate cfg)))
                 (log (at_gate cfg)))) as Hm.
    { apply main_stops_at_gate. unfold ensure_sufficient_funds.
      apply bind_raise. rewrite Hc. apply Hb. }
    rewrite Hm. split; reflexivity.
Qed.

(** X5. A balance response with an error makes the balance check exit, after
    logging and notifying the error, without comparing any amount, whatever
    the strategies require. *)
Theorem balance_error_aborts api_key api_secret strategies webhook base_url
    w s bal_resp s1 error :
  get_balance api_key api_secret base_url w s = (Ok bal_resp, s1) ->
  dict_get bal_resp "error" JNull = Ok error ->
  truthy error = true ->
  ensure_sufficient_funds api_key api_secret strategies webhook base_url w s
  = (Raise (SystemExit "Aborting due to balance fetch error."),
     snd (send_discord_message webhook ""
            (Some (ExceptionEmbed "ALL" (BalanceFetchFailed error))) w
            (with_log s1 [LogBalanceError error]))).
Proof.
  intros Hb He Ht. unfold ensure_sufficient_funds.
  rewrite (bind_ok _ _ _ _ _ _ Hb).
  unfold bind at 1. unfold lift at 1. rewrite He, Ht.
  unfold bind at 1. rewrite logger_run.
  unfold bind. unfold create_exception_embed.
  rewrite send_discord_message_run. reflexivity.
Qed.

(** X6. The balance request carries the single field [nonce] and is signed over
    the string [nonce=<nonce>] for the path of the balance endpoint. *)
Theorem get_balance_request api_key api_secret base_url w s api_sign :
  let nonce := str_int (int (clock w (reads s) * 1000)) in
  get_signature api_secret ("nonce=" ++ nonce) nonce "/0/private/Balance"
  = Ok api_sign ->
  sent (snd (get_balance api_key api_secret base_url w s))
  = (sent s
     ++ [mkRequest POST (base_url ++ "/0/private/Balance")
           [("API-Key", api_key); ("API-Sign", api_sign)]
           (FormData [("nonce", VStr nonce)])])%list
  /\ reads (snd (get_balance api_key api_secret base_url w s)) = S (reads s).
Proof.
  intros nonce H.
  unfold get_balance, bind. rewrite get_nonce_run. fold nonce.
  unfold lift at 1.
  change (encode_post_data [("nonce", VStr nonce)]) with ("nonce=" ++ nonce).
  rewrite H. unfold requests_post, send. simpl.
  destruct (net w _ _) as [resp | cls msg]; simpl; [| split; reflexivity].
  unfold response_json. destruct (json_body resp); split; reflexivity.
Qed.

(** X7. To a non-empty webhook URL exactly one request goes out: a JSON POST
    whose payload has the key [content] only for a non-empty text and the
    key [embeds], a one-element list, only for a given embed. *)
Theorem send_discord_message_request webhook_url text embed w s :
  webhook_url <> "" ->
  sent (snd (send_discord_message webhook_url text embed w s))
  = (sent s
     ++ [mkRequest POST webhook_url []
           (JsonData
              (mkPayload (if String.eqb text "" then None else Some text)
                 (match embed with Some e => Some [e] | None => None end)))])%list.
Proof.
  intros H. unfold send_discord_message.
  destruct (String.eqb webhook_url "") eqn:E.
  { apply String.eqb_eq in E. contradiction. }
  unfold try_except, bind, requests_post_json, send. simpl.
  destruct (net w _ _) as [resp | cls msg]; simpl.
  - destruct (300 <=? status_code resp)%Z; reflexivity.
  - reflexivity.
Qed.

End Further.

(** *** Rounding *)

Lemma round_half_even_close y :
  (Qabs (inject_Z (round_half_even y) - y) <= 1 # 2)%Q.
Proof.
  unfold round_half_even.
  pose proof (Qfloor_le y) as Hlo. pose proof (Qlt_floor y) as Hhi.
  rewrite inject_Z_plus in Hhi. change (inject_Z 1) with 1%Q in Hhi.
  apply Qabs_Qle_condition.
  destruct (Qcompare_spec (y - inject_Z (Qfloor y)) (1 # 2)) as [E | L | G].
  - destruct (Z.even (Qfloor y));
      [| rewrite inject_Z_plus; change (inject_Z 1) with 1%Q]; split; lra.
  - split; lra.
  - rewrite inject_Z_plus. change (inject_Z 1) with 1%Q. split; lra.
Qed.

(** [round(x, 8)] is within half a unit of the eighth decimal of [x]. *)
Lemma round_8_close x : (Qabs (round x 8 - x) <= 1 # 200000000)%Q.
Proof.
  unfold round.
  change (Z.to_pos (10 ^ Z.of_nat 8)) with 100000000%positive.
  pose proof (round_half_even_close (x * inject_Z 100000000)) as H.
  apply Qabs_Qle_condition in H. apply Qabs_Qle_condition.
  rewrite (Qmake_Qdiv (round_half_even (x * inject_Z 100000000)) 100000000).
  set (z := inject_Z (round_half_even (x * inject_Z 100000000))) in *.
  change (inject_Z 100000000) with 100000000%Q in *.
  split.
  - apply Qle_trans with ((z - x * 100000000) / 100000000)%Q.
    + apply Qle_shift_div_l; [reflexivity | lra].
    + apply Qle_lteq. right. field.
  - apply Qle_trans with ((z - x * 100000000) / 100000000)%Q.
    + apply Qle_lteq. right. field.
    + apply Qle_shift_div_r; [reflexivity | lra].
Qed.

Lemma bind_ok_inv {A B} (c : M A) (k : A -> M B) w s b s' :
  bind c k w s = (Ok b, s') ->
  exists a s1, c w s = (Ok a, s1) /\ k a w s1 = (Ok b, s').
Proof.
  unfold bind. intros H.
  destruct (c w s) as [[a | e] s1]; [| discriminate].
  exists a, s1. auto.
Qed.

Section FurtherLoop.

Context {RT : Runtime}.

(** X8. The volume: division by a zero price raises, and otherwise the volume is
    a whole number of hundred-millionths within 1/200000000 (that is 5e-9)
    of amount / price. *)
Theorem eur_to_volume_rounds pair amount base_url w s price s1 :
  get_ask_price pair base_url w s = (Ok price, s1) ->
  ((price == 0)%Q ->
   eur_to_volume pair amount base_url w s
   = (Raise (Exc "ZeroDivisionError" "float division by zero"), s1))
  /\ (~ (price == 0)%Q ->
      exists volume k,
        eur_to_volume pair amount base_url w s = (Ok volume, s1)
        /\ volume = Qmake k 100000000
        /\ (Qabs (volume - amount / price) <= 1 # 200000000)%Q).
Proof.
  intros H. unfold eur_to_volume. rewrite (bind_ok _ _ _ _ _ _ H). split.
  - intros Hz. apply Qeq_bool_iff in Hz. rewrite Hz. reflexivity.
  - intros Hz.
    destruct (Qeq_bool price 0) eqn:E.
    { apply Qeq_bool_iff in E. contradiction. }
    exists (round (amount / price) 8),
           (round_half_even (amount / price * inject_Z 100000000)).
    split; [reflexivity |]. split; [reflexivity |]. apply round_8_close.
Qed.

(** A [try] block that returns has appended exactly one element: the record
    of a dry run in a dry run, the response of the order otherwise. *)
Lemma strategy_body_appends api_key api_secret webhook base_url dry_run strat
    results w s r s' :
  strategy_body api_key api_secret webhook base_url dry_run strat results w s
  = (Ok r, s') ->
  exists x, r = (results ++ [x])%list /\ is_dry_run_result x = dry_run.
Proof.
  unfold strategy_body. intros H.
  apply bind_ok_inv in H as [_ [s0 [_ H]]].
  apply bind_ok_inv in H as [price [s1 [_ H]]].
  apply bind_ok_inv in H as [volume [s2 [_ H]]].
  apply bind_ok_inv in H as [_ [s3 [_ H]]].
  destruct dry_run.
  - apply bind_ok_inv in H as [_ [s4 [_ H]]].
    apply bind_ok_inv in H as [_ [s5 [_ H]]].
    inversion H. eexists. split; reflexivity.
  - apply bind_ok_inv in H as [order_resp [s4 [_ H]]].
    apply bind_ok_inv in H as [error [s5 [_ H]]].
    apply bind_ok_inv in H as [_ [s6 [_ H]]].
    inversion H. eexists. split; reflexivity.
Qed.

Lemma process_strategy_appends api_key api_secret webhook base_url dry_run strat
    results w s :
  exists added,
    fst (process_strategy api_key api_secret webhook base_url dry_run strat
           results w s) = Ok (results ++ added)%list
    /\ (List.length added <= 1)%nat
    /\ Forall (fun x => is_dry_run_result x = dry_run) added.
Proof.
  destruct (strategy_body api_key api_secret webhook base_url dry_run strat
              results w s) as [[r | e] s1] eqn:E.
  - destruct (strategy_body_appends _ _ _ _ _ _ _ _ _ _ _ E) as [x [-> Hx]].
    exists [x]. unfold process_strategy.
    rewrite (try_except_ok _ _ _ _ _ _ E). simpl. auto.
  - exists []. rewrite (process_strategy_caught _ _ _ _ _ _ _ _ _ _ _ E).
    simpl. rewrite app_nil_r. auto.
Qed.

(** X9. The strategy loop returns in every environment and in either mode; its
    results number at most the strategies, and all are dry-run records in a
    dry run and order responses otherwise. *)
Theorem execute_strategies_returns api_key api_secret strategies webhook base_url
    dry_run w s :
  exists results,
    fst (execute_strategies api_key api_secret strategies webhook base_url
           dry_run w s) = Ok results
    /\ (List.length results <= List.length strategies)%nat
    /\ Forall (fun x => is_dry_run_result x = dry_run) results.
Proof.
  unfold execute_strategies.
  assert (forall results w s,
            exists added,
              fst (strategies_loop api_key api_secret webhook base_url dry_run
                     strategies results w s) = Ok (results ++ added)%list
              /\ (List.length added <= List.length strategies)%nat
              /\ Forall (fun x => is_dry_run_result x = dry_run) added) as H.
  { induction strategies as [| strat rest IH]; intros results w0 s0.
    - exists []. simpl. rewrite app_nil_r. auto.
    - simpl. unfold bind.
      destruct (process_strategy_appends api_key api_secret webhook base_url
                  dry_run strat results w0 s0) as [a1 [H1 [L1 F1]]].
      destruct (process_strategy _ _ _ _ _ _ _ w0 s0) as [r s1].
      unfold fst in H1. subst r.
      destruct (IH (results ++ a1)%list w0 s1) as [a2 [H2 [L2 F2]]].
      exists (a1 ++ a2)%list. cbv beta iota. rewrite H2, app_assoc.
      split; [reflexivity |]. split.
      + rewrite length_app. simpl. lia.
      + apply Forall_app. auto. }
  destruct (H [] w s) as [added [H1 [H2 H3]]].
  exists added. auto.
Qed.

(** X10. The response of an order is recorded whether the exchange accepted the
    order or refused it: a response with an error list is logged and
    notified as a failure and still appended to the results. *)
Theorem order_response_is_recorded api_key api_secret webhook base_url strat
    results w s price s1 volume s2 order_resp s3 error :
  get_ask_price (pair strat) base_url w
    (with_log s [LogProcessing (pair strat) (amount_eur strat)]) = (Ok price, s1) ->
  eur_to_volume (pair strat) (amount_eur strat) base_url w s1 = (Ok volume, s2) ->
  pass_market_order api_key api_secret (pair strat) volume base_url w
    (with_log s2 [LogVolume volume price (pair strat)]) = (Ok order_resp, s3) ->
  dict_get order_resp "error" JNull = Ok error ->
  (truthy error = true -> joinable error = true ->
   strategy_body api_key api_secret webhook base_url false strat results w s
   = (Ok (results ++ [OrderResponse order_resp])%list,
      snd (send_discord_message webhook ""
             (Some (ErrorEmbed (pair strat) volume price error)) w
             (with_log s3 [LogFailed (pair strat) volume price error]))))
  /\ (truthy error = false ->
      forall result txid,
        dict_get order_resp "result" (JObj []) = Ok result ->
        dict_get result "txid" (JArr []) = Ok txid ->
        truthy txid && negb (joinable txid) = false ->
        strategy_body api_key api_secret webhook base_url false strat results w s
        = (Ok (results ++ [OrderResponse order_resp])%list,
           snd (send_discord_message webhook ""
                  (Some (SuccessEmbed (pair strat) volume price txid)) w
                  (with_log s3 [LogSuccess (pair strat) volume price txid])))).
Proof.
  intros Hp Hv Ho He.
  split.
  - intros Ht Hj. unfold strategy_body.
    unfold bind at 1. rewrite logger_run.
    rewrite (bind_ok _ _ _ _ _ _ Hp).
    rewrite (bind_ok _ _ _ _ _ _ Hv).
    unfold bind at 1. rewrite logger_run.
    rewrite (bind_ok _ _ _ _ _ _ Ho).
    unfold bind at 1. unfold lift at 1. rewrite He, Ht.
    unfold bind at 1. unfold bind at 1. rewrite logger_run.
    unfold bind at 1. unfold lift at 1. unfold create_error_embed. rewrite Hj.
    rewrite send_discord_message_run. reflexivity.
  - intros Ht result txid Hr Hx Hj. unfold strategy_body.
    unfold bind at 1. rewrite logger_run.
    rewrite (bind_ok _ _ _ _ _ _ Hp).
    rewrite (bind_ok _ _ _ _ _ _ Hv).
    unfold bind at 1. rewrite logger_run.
    rewrite (bind_ok _ _ _ _ _ _ Ho).
    unfold bind at 1. unfold lift at 1. rewrite He, Ht.
    unfold bind at 1. unfold bind at 1. unfold lift at 1. rewrite Hr.
    unfold bind at 1. unfold lift at 1. rewrite Hx.
    unfold bind at 1. rewrite logger_run.
    unfold bind at 1. unfold lift at 1. unfold create_success_embed. rewrite Hj.
    rewrite send_discord_message_run. reflexivity.
Qed.

End FurtherLoop.

(** *** Concrete runs *)

#[local] Existing Instance reference_runtime.

(** The balance request of the scenarios, answered. *)
Lemma scenario_get_balance s :
  s = initial \/ s = at_gate (Scenario.config Scenario.webhook false) ->
  forall w balances,
  w = Scenario.rich
    /\ balances = [ ("ZEUR", JStr "299.999999995"); ("XXBT", JStr "0.0100000000") ]
  \/ w = Scenario.poor
    /\ balances = [ ("ZEUR", JStr "250"); ("XXBT", JStr "0.0100000000") ]
  \/ w = Scenario.no_euro
    /\ balances = [ ("XXBT", JStr "0.0100000000") ] ->
  get_balance Scenario.api_key Scenario.api_secret Scenario.base w s
  = (Ok (Scenario.balance_json balances),
     snd (get_balance Scenario.api_key Scenario.api_secret Scenario.base w s)).
Proof.
  intros [-> | ->] w balances [[-> ->] | [[-> ->] | [-> ->]]];
    vm_compute; reflexivity.
Qed.

Lemma ensure_sufficient_funds_gate_witness :
  let strategies := [Scenario.btc; Scenario.eth; Scenario.sol] in
  let gate w :=
    ensure_sufficient_funds Scenario.api_key Scenario.api_secret strategies
      Scenario.webhook Scenario.base w initial in
  (total_required strategies == 300)%Q
  /\ fst (gate Scenario.rich) = Ok tt
  /\ fst (gate Scenario.poor)
     = Raise (SystemExit "Insufficient EUR balance. Trades cancelled.")
  /\ In (LogInsufficient (total_required strategies) 250)
        (log (snd (gate Scenario.poor)))
  /\ In (discord_post Scenario.webhook
           (InsufficientFundsEmbed (total_required strategies) 250))
        (sent (snd (gate Scenario.poor))).
Proof.
  intros strategies gate.
  pose proof (ensure_sufficient_funds_gate Scenario.api_key Scenario.api_secret
                strategies Scenario.webhook Scenario.base Scenario.rich initial
                _ _ (JArr []) (JObj _) 299.999999995%Q
                (scenario_get_balance _ (or_introl eq_refl) _ _
                   (or_introl (conj eq_refl eq_refl)))
                eq_refl eq_refl eq_refl eq_refl) as [_ [Hrich _]].
  pose proof (ensure_sufficient_funds_gate Scenario.api_key Scenario.api_secret
                strategies Scenario.webhook Scenario.base Scenario.poor initial
                _ _ (JArr []) (JObj _) 250%Q
                (scenario_get_balance _ (or_introl eq_refl) _ _
                   (or_intror (or_introl (conj eq_refl eq_refl))))
                eq_refl eq_refl eq_refl eq_refl) as [_ [_ [Hpoor _]]].
  split; [reflexivity |].
  split; [apply Hrich; discriminate |].
  destruct Hpoor as [H1 [H2 H3]]; [reflexivity |].
  split; [exact H1 |]. split; [exact H2 |].
  apply H3. discriminate.
Defined.

Lemma available_eur_aliases_witness :
  available_eur (JObj [("XXBT", JStr "0.0100000000")]) = Ok 0%Q
  /\ fst (ensure_sufficient_funds Scenario.api_key Scenario.api_secret
            [Scenario.btc] "" Scenario.base Scenario.no_euro initial)
     = Raise (SystemExit "Insufficient EUR balance. Trades cancelled.").
Proof.
  destruct (proj2 (available_eur_aliases [("XXBT", JStr "0.0100000000")])
              eq_refl eq_refl) as [H1 H2].
  split; [exact H1 |].
  exact (H2 Scenario.api_key Scenario.api_secret [Scenario.btc] ""
           Scenario.base Scenario.no_euro initial _ _ (JArr [])
           (scenario_get_balance _ (or_introl eq_refl) _ _
              (or_intror (or_intror (conj eq_refl eq_refl))))
           eq_refl eq_refl eq_refl eq_refl).
Defined.

Lemma main_checks_balance_before_orders_witness :
  let run := main (Scenario.config Scenario.webhook false) Scenario.poor initial in
  fst run = Raise (SystemExit "Insufficient EUR balance. Trades cancelled.")
  /\ Forall (fun r => is_add_order Scenario.base r = false) (sent (snd run)).
Proof.
  exact (proj2 (proj2 (main_checks_balance_before_orders
                         (Scenario.config Scenario.webhook false) Scenario.poor))
           _ _ (JArr []) (JObj _) 250%Q
           (scenario_get_balance _ (or_intror eq_refl) _ _
              (or_intror (or_introl (conj eq_refl eq_refl))))
           eq_refl eq_refl eq_refl eq_refl eq_refl).
Defined.

(** C5, as stated, fails: with three strategies of which the second raises
    (its ticker request times out), the list returned has two elements, the
    order responses of the first and the third; nothing stands for the
    second, whose exception is only logged and notified. *)
Lemma execute_strategies_drops_the_failed_strategy :
  let run :=
    execute_strategies Scenario.api_key Scenario.api_secret
      [Scenario.btc; Scenario.eth; Scenario.sol] "" Scenario.base false
      Scenario.flaky initial in
  fst run
  = Ok [ OrderResponse (Scenario.order_json "OUF4EM-FRGI2-MQMWZD");
         OrderResponse (Scenario.order_json "OUF4EM-FRGI2-MQMWZD") ]
  /\ In (LogStrategyException "XETHZEUR"
           (Exc "ReadTimeout" "Read timed out. (read timeout=15)"))
        (log (snd run))
  /\ In (LogSuccess "SOLEUR" 0.40000000 125.00 (JArr [JStr "OUF4EM-FRGI2-MQMWZD"]))
        (log (snd run)).
Proof.
  vm_compute. split; [reflexivity |]. split; tauto.
Qed.

Lemma scenario_eth_raises :
  strategy_body Scenario.api_key Scenario.api_secret Scenario.webhook
    Scenario.base false Scenario.eth [] Scenario.flaky initial
  = (Raise (Exc "ReadTimeout" "Read timed out. (read timeout=15)"),
     snd (strategy_body Scenario.api_key Scenario.api_secret Scenario.webhook
            Scenario.base false Scenario.eth [] Scenario.flaky initial)).
Proof. vm_compute. reflexivity. Qed.

Lemma strategy_exception_is_isolated_witness :
  let e := Exc "ReadTimeout" "Read timed out. (read timeout=15)" in
  let s1 :=
    snd (strategy_body Scenario.api_key Scenario.api_secret Scenario.webhook
           Scenario.base false Scenario.eth [] Scenario.flaky initial) in
  let s2 :=
    snd (send_discord_message Scenario.webhook ""
           (Some (ExceptionEmbed "XETHZEUR" (StrOfException e))) Scenario.flaky
           (with_log s1 [LogStrategyException "XETHZEUR" e])) in
  is_Exception e = true
  /\ process_strategy Scenario.api_key Scenario.api_secret Scenario.webhook
       Scenario.base false Scenario.eth [] Scenario.flaky initial
     = (Ok [], s2)
  /\ strategies_loop Scenario.api_key Scenario.api_secret Scenario.webhook
       Scenario.base false [Scenario.eth; Scenario.sol] [] Scenario.flaky initial
     = strategies_loop Scenario.api_key Scenario.api_secret Scenario.webhook
         Scenario.base false [Scenario.sol] [] Scenario.flaky s2
  /\ exists final,
       fst (strategies_loop Scenario.api_key Scenario.api_secret Scenario.webhook
              Scenario.base false [Scenario.eth; Scenario.sol] []
              Scenario.flaky initial) = Ok final.
Proof.
  exact (strategy_exception_is_isolated Scenario.api_key Scenario.api_secret
           Scenario.webhook Scenario.base false Scenario.eth [Scenario.sol] []
           Scenario.flaky initial _ _ scenario_eth_raises).
Defined.

(** C6, as stated, fails: in a dry run of three strategies of which the second
    raises while it is priced (its ticker request times out), the list
    returned has two simulated results, those of the first and the third;
    the second strategy produces none, its exception is only logged and
    notified. *)
Lemma dry_run_skips_the_failed_strategy :
  let run :=
    execute_strategies Scenario.api_key Scenario.api_secret
      [Scenario.btc; Scenario.eth; Scenario.sol] Scenario.webhook Scenario.base true
      Scenario.flaky initial in
  fst run
  = Ok [ DryRunResult "XXBTZEUR" 100 50000.00000 0.00200000;
         DryRunResult "SOLEUR" 50 125.00 0.40000000 ]
  /\ In (LogStrategyException "XETHZEUR"
           (Exc "ReadTimeout" "Read timed out. (read timeout=15)"))
        (log (snd run)).
Proof.
  vm_compute. split; [reflexivity | tauto].
Qed.

(** With every ticker answering, the pricing of the three strategies
    returns. *)
Lemma scenario_all_priced :
  exists s_end,
    all_priced Scenario.webhook Scenario.base Scenario.rich
      [Scenario.btc; Scenario.eth; Scenario.sol] initial
      [(50000.00000, 0.00200000); (2500.00, 0.06000000); (125.00, 0.40000000)]
      s_end.
Proof.
  eexists.
  do 3 (eapply priced_cons; [vm_compute; reflexivity | vm_compute; reflexivity |]).
  apply priced_nil.
Qed.

Lemma dry_run_places_no_order_witness :
  let run :=
    execute_strategies Scenario.api_key Scenario.api_secret
      [Scenario.btc; Scenario.eth; Scenario.sol] Scenario.webhook Scenario.base true
      Scenario.rich initial in
  Forall (fun r => is_add_order Scenario.base r = false) (sent (snd run))
  /\ fst run
     = Ok [ DryRunResult "XXBTZEUR" 100 50000.00000 0.00200000;
            DryRunResult "XETHZEUR" 150 2500.00 0.06000000;
            DryRunResult "SOLEUR" 50 125.00 0.40000000 ].
Proof.
  intros run.
  pose proof (dry_run_places_no_order Scenario.api_key Scenario.api_secret
                [Scenario.btc; Scenario.eth; Scenario.sol] Scenario.webhook
                Scenario.base Scenario.rich initial) as T.
  cbv zeta in T. fold run in T.
  destruct T as [[new [E [_ F]]] [_ [_ W]]].
  destruct scenario_all_priced as [s_end P].
  destruct (W _ _ P) as [_ R].
  split.
  - rewrite E. exact F.
  - rewrite R. reflexivity.
Defined.

Lemma scenario_first_price :
  get_ask_price "XXBTZEUR" Scenario.base Scenario.volatile
    (with_log initial [LogProcessing "XXBTZEUR" 100])
  = (Ok 50000.0%Q,
     snd (get_ask_price "XXBTZEUR" Scenario.base Scenario.volatile
            (with_log initial [LogProcessing "XXBTZEUR" 100]))).
Proof. vm_compute. reflexivity. Qed.

Lemma scenario_second_price :
  get_ask_price "XXBTZEUR" Scenario.base Scenario.volatile
    (snd (get_ask_price "XXBTZEUR" Scenario.base Scenario.volatile
            (with_log initial [LogProcessing "XXBTZEUR" 100])))
  = (Ok 40000.0%Q,
     snd (get_ask_price "XXBTZEUR" Scenario.base Scenario.volatile
            (snd (get_ask_price "XXBTZEUR" Scenario.base Scenario.volatile
                    (with_log initial [LogProcessing "XXBTZEUR" 100]))))).
Proof. vm_compute. reflexivity. Qed.

Lemma reported_price_and_volume_use_two_fetches_witness :
  fst (strategy_body Scenario.api_key Scenario.api_secret "" Scenario.base true
         Scenario.btc [] Scenario.volatile initial)
  = Ok [DryRunResult "XXBTZEUR" 100 50000.0 (round (100 / 40000.0) 8)].
Proof.
  exact (f_equal fst
           (proj1 reported_price_and_volume_use_two_fetches reference_runtime
              Scenario.api_key Scenario.api_secret "" Scenario.base Scenario.btc
              [] Scenario.volatile initial 50000.0%Q _ 40000.0%Q _
              scenario_first_price scenario_second_price eq_refl)).
Defined.

(** *** Concrete runs of the further properties *)

Lemma run_eq {A} (c : outcome A * State) (r : outcome A) :
  fst c = r -> c = (r, snd c).
Proof. intros <-. destruct c. reflexivity. Qed.

Lemma check_kraken_status_online_only_witness :
  fst (check_kraken_status Scenario.base Scenario.rich initial) = Ok tt.
Proof.
  apply (proj1 (check_kraken_status_online_only Scenario.base Scenario.rich
                  initial (mkResponse 200 (Some Scenario.status_json))
                  (mkState [mkRequest GET (Scenario.base ++ "/0/public/SystemStatus")
                              [] NoBody] 0 [])
                  [ ("error", JArr []);
                    ("result", JObj [ ("status", JStr "online") ]) ]
                  eq_refl eq_refl)).
  exists [ ("status", JStr "online") ]. split; reflexivity.
Defined.

Lemma scenario_gate_passes :
  ensure_sufficient_funds Scenario.api_key Scenario.api_secret
    [Scenario.btc; Scenario.eth; Scenario.sol] "" Scenario.base
    Scenario.offline (at_gate (Scenario.config "" false))
  = (Ok tt,
     snd (ensure_sufficient_funds Scenario.api_key Scenario.api_secret
            [Scenario.btc; Scenario.eth; Scenario.sol] "" Scenario.base
            Scenario.offline (at_gate (Scenario.config "" false)))).
Proof. apply run_eq. vm_compute. reflexivity. Qed.

Lemma scenario_status_raises :
  let s1 :=
    snd (ensure_sufficient_funds Scenario.api_key Scenario.api_secret
           [Scenario.btc; Scenario.eth; Scenario.sol] "" Scenario.base
           Scenario.offline (at_gate (Scenario.config "" false))) in
  let s2 :=
    snd (send_discord_message "" "" (Some (StartEmbed 3)) Scenario.offline s1) in
  check_kraken_status Scenario.base Scenario.offline s2
  = (Raise (Exc "Exception" "API is not online. Aborting."),
     snd (check_kraken_status Scenario.base Scenario.offline s2)).
Proof. apply run_eq. vm_compute. reflexivity. Qed.

Lemma main_stops_when_not_online_witness :
  let s1 :=
    snd (ensure_sufficient_funds Scenario.api_key Scenario.api_secret
           [Scenario.btc; Scenario.eth; Scenario.sol] "" Scenario.base
           Scenario.offline (at_gate (Scenario.config "" false))) in
  let s2 :=
    snd (send_discord_message "" "" (Some (StartEmbed 3)) Scenario.offline s1) in
  let s3 := snd (check_kraken_status Scenario.base Scenario.offline s2) in
  main (Scenario.config "" false) Scenario.offline initial
  = (Raise (Exc "Exception" "API is not online. Aborting."), s3)
  /\ Forall (fun r => is_add_order Scenario.base r = false) (sent s3).
Proof.
  exact (main_stops_when_not_online (Scenario.config "" false) Scenario.offline
           _ _ _ scenario_gate_passes scenario_status_raises).
Defined.

Lemma scenario_renamed_ticker :
  requests_get (Scenario.base ++ "/0/public/Ticker?pair=" ++ "XXBTZEUR")
    Scenario.renamed (with_log initial [LogProcessing "XXBTZEUR" 100])
  = (Ok (mkResponse 200 (Some (Scenario.ticker_json "XBTEUR" "50000.00000"))),
     snd (requests_get (Scenario.base ++ "/0/public/Ticker?pair=" ++ "XXBTZEUR")
            Scenario.renamed (with_log initial [LogProcessing "XXBTZEUR" 100]))).
Proof. vm_compute. reflexivity. Qed.

Lemma unlisted_pair_is_skipped_witness :
  process_strategy Scenario.api_key Scenario.api_secret "" Scenario.base false
    Scenario.btc [] Scenario.renamed initial
  = (Ok [],
     snd (send_discord_message ""  ""
            (Some (ExceptionEmbed "XXBTZEUR"
                     (StrOfException (Exc "KeyError" "XXBTZEUR"))))
            Scenario.renamed
            (with_log
               (snd (requests_get
                       (Scenario.base ++ "/0/public/Ticker?pair=" ++ "XXBTZEUR")
                       Scenario.renamed
                       (with_log initial [LogProcessing "XXBTZEUR" 100])))
               [LogStrategyException "XXBTZEUR" (Exc "KeyError" "XXBTZEUR")]))).
Proof.
  exact (proj2 (unlisted_pair_is_skipped Scenario.api_key Scenario.api_secret ""
                  Scenario.base false Scenario.btc [] Scenario.renamed initial
                  _ _ _ _ scenario_renamed_ticker eq_refl eq_refl eq_refl)).
Defined.

Lemma undecodable_secret_sends_nothing_witness :
  let cfg := mkConfig "key" "A" "" Scenario.base [Scenario.btc] false in
  fst (main cfg Scenario.rich initial)
  = Raise (Exc "binascii.Error" "Incorrect padding")
  /\ sent (snd (main cfg Scenario.rich initial)) = [].
Proof.
  exact (proj2 (proj2 (undecodable_secret_sends_nothing "A" eq_refl))
           (mkConfig "key" "A" "" Scenario.base [Scenario.btc] false)
           Scenario.rich eq_refl).
Defined.

Lemma scenario_locked_out_balance :
  get_balance Scenario.api_key Scenario.api_secret Scenario.base
    Scenario.locked_out initial
  = (Ok (JObj [ ("error", JArr [JStr "EAPI:Invalid key"]) ]),
     snd (get_balance Scenario.api_key Scenario.api_secret Scenario.base
            Scenario.locked_out initial)).
Proof. vm_compute. reflexivity. Qed.

Lemma balance_error_aborts_witness :
  ensure_sufficient_funds Scenario.api_key Scenario.api_secret [] "" Scenario.base
    Scenario.locked_out initial
  = (Raise (SystemExit "Aborting due to balance fetch error."),
     snd (send_discord_message "" ""
            (Some (ExceptionEmbed "ALL"
                     (BalanceFetchFailed (JArr [JStr "EAPI:Invalid key"]))))
            Scenario.locked_out
            (with_log
               (snd (get_balance Scenario.api_key Scenario.api_secret Scenario.base
                       Scenario.locked_out initial))
               [LogBalanceError (JArr [JStr "EAPI:Invalid key"])]))).
Proof.
  exact (balance_error_aborts Scenario.api_key Scenario.api_secret [] ""
           Scenario.base Scenario.locked_out initial _ _ _
           scenario_locked_out_balance eq_refl eq_refl).
Defined.

Lemma scenario_signature data nonce path :
  data = "nonce=1700000000000" /\ path = "/0/private/Balance"
  \/ data = "nonce=1700000000000&ordertype=market&type=buy&volume=0.002&pair=XXBTZEUR"
     /\ path = "/0/private/AddOrder" ->
  nonce = "1700000000000" ->
  get_signature Scenario.api_secret data nonce path
  = Ok (Scenario.signature_of data nonce path).
Proof.
  intros [[-> ->] | [-> ->]] ->; vm_compute; reflexivity.
Qed.

Lemma get_balance_request_witness :
  sent (snd (get_balance Scenario.api_key Scenario.api_secret Scenario.base
               Scenario.rich initial))
  = [mkRequest POST (Scenario.base ++ "/0/private/Balance")
       [("API-Key", Scenario.api_key);
        ("API-Sign",
         Scenario.signature_of "nonce=1700000000000" "1700000000000" "/0/private/Balance")]
       (FormData [("nonce", VStr "1700000000000")])]
  /\ reads (snd (get_balance Scenario.api_key Scenario.api_secret Scenario.base
                   Scenario.rich initial)) = 1%nat.
Proof.
  exact (get_balance_request Scenario.api_key Scenario.api_secret Scenario.base
           Scenario.rich initial _
           (scenario_signature _ _ _ (or_introl (conj eq_refl eq_refl)) eq_refl)).
Defined.

Lemma pass_market_order_request_witness :
  encode_post_data (order_fields "1700000000000" 0.002 "XXBTZEUR")
  = "nonce=1700000000000&ordertype=market&type=buy&volume=0.002&pair=XXBTZEUR"
  /\ sent (snd (pass_market_order Scenario.api_key Scenario.api_secret "XXBTZEUR"
                  0.002 Scenario.base Scenario.rich initial))
     = [mkRequest POST (Scenario.base ++ "/0/private/AddOrder")
          [("API-Key", Scenario.api_key);
           ("API-Sign",
            Scenario.signature_of
              "nonce=1700000000000&ordertype=market&type=buy&volume=0.002&pair=XXBTZEUR"
              "1700000000000" "/0/private/AddOrder")]
          (FormData (order_fields "1700000000000" 0.002 "XXBTZEUR"))].
Proof.
  exact (pass_market_order_request Scenario.api_key Scenario.api_secret
           "XXBTZEUR" 0.002 Scenario.base Scenario.rich initial _
           (scenario_signature _ _ _ (or_intror (conj eq_refl eq_refl)) eq_refl)).
Defined.

Lemma encode_params_safe_witness :
  Requests.encode_params (order_fields "1700000000000" 0.002 "XXBTZEUR")
  = encode_post_data (order_fields "1700000000000" 0.002 "XXBTZEUR").
Proof.
  exact (encode_params_safe (order_fields "1700000000000" 0.002 "XXBTZEUR")
           eq_refl).
Defined.

Lemma send_discord_message_request_witness :
  sent (snd (send_discord_message Scenario.webhook "run finished" None
               Scenario.rich initial))
  = [mkRequest POST Scenario.webhook []
       (JsonData (mkPayload (Some "run finished") None))].
Proof.
  apply (send_discord_message_request Scenario.webhook "run finished" None
           Scenario.rich initial).
  discriminate.
Defined.

Lemma scenario_btc_price :
  get_ask_price "XXBTZEUR" Scenario.base Scenario.rich initial
  = (Ok 50000.00000%Q,
     snd (get_ask_price "XXBTZEUR" Scenario.base Scenario.rich initial)).
Proof. vm_compute. reflexivity. Qed.

Lemma eur_to_volume_rounds_witness :
  exists volume k,
    eur_to_volume "XXBTZEUR" 100 Scenario.base Scenario.rich initial
    = (Ok volume,
       snd (get_ask_price "XXBTZEUR" Scenario.base Scenario.rich initial))
    /\ volume = Qmake k 100000000
    /\ (Qabs (volume - 100 / 50000.00000) <= 1 # 200000000)%Q.
Proof.
  apply (proj2 (eur_to_volume_rounds "XXBTZEUR" 100 Scenario.base Scenario.rich
                  initial 50000.00000%Q _ scenario_btc_price)).
  discriminate.
Defined.

Lemma scenario_rejecting_prices :
  let s0 := with_log initial [LogProcessing "XXBTZEUR" 100] in
  let s1 := snd (get_ask_price "XXBTZEUR" Scenario.base Scenario.rejecting s0) in
  let s2 := snd (eur_to_volume "XXBTZEUR" 100 Scenario.base Scenario.rejecting s1) in
  let s3 :=
    snd (pass_market_order Scenario.api_key Scenario.api_secret "XXBTZEUR"
           0.00200000 Scenario.base Scenario.rejecting
           (with_log s2 [LogVolume 0.00200000 50000.00000 "XXBTZEUR"])) in
  get_ask_price "XXBTZEUR" Scenario.base Scenario.rejecting s0
  = (Ok 50000.00000%Q, s1)
  /\ eur_to_volume "XXBTZEUR" 100 Scenario.base Scenario.rejecting s1
     = (Ok 0.00200000%Q, s2)
  /\ pass_market_order Scenario.api_key Scenario.api_secret "XXBTZEUR"
       0.00200000 Scenario.base Scenario.rejecting
       (with_log s2 [LogVolume 0.00200000 50000.00000 "XXBTZEUR"])
     = (Ok (JObj [ ("error", JArr [JStr "EOrder:Insufficient funds"]) ]), s3).
Proof.
  repeat split; apply run_eq; vm_compute; reflexivity.
Qed.

Lemma order_response_is_recorded_witness :
  fst (strategy_body Scenario.api_key Scenario.api_secret "" Scenario.base false
         Scenario.btc [] Scenario.rejecting initial)
  = Ok [OrderResponse (JObj [ ("error", JArr [JStr "EOrder:Insufficient funds"]) ])].
Proof.
  exact (f_equal fst
           (proj1 (order_response_is_recorded Scenario.api_key Scenario.api_secret
                     "" Scenario.base Scenario.btc [] Scenario.rejecting initial
                     _ _ _ _ _ _ _
                     (proj1 scenario_rejecting_prices)
                     (proj1 (proj2 scenario_rejecting_prices))
                     (proj2 (proj2 scenario_rejecting_prices))
                     eq_refl)
              eq_refl eq_refl)).
Defined.
